(** * Light devices of emulated_hue: a shallow embedding of
      [emulated_hue/controllers/devices.py]

    The Python module is embedded as pure functions over an explicit device
    record.  Mutation of [self] becomes state passing, exceptions become a
    result type, and logging, backend calls and store writes are collected in
    a trace of events.  Python numbers of type [float] are modelled by exact
    rationals. *)

From Stdlib Require Import QArith Qround.
From stdpp Require Import gmap strings list fin_maps.

#[local] Set Warnings "-register-all".
Local Open Scope string_scope.
Local Open Scope Z_scope.

(** ** Python values *)

Module Py.

(** The dynamically typed values that reach the device methods.  Tuples and
    lists are both written [VList]: the code only unpacks, indexes and tests
    them for emptiness. *)
Inductive value : Type :=
  | VNone
  | VBool (b : bool)
  | VInt (z : Z)
  | VFloat (q : Q)
  | VStr (s : string)
  | VList (l : list value).

Inductive exn : Type :=
  | TypeError
  | IndexError
  | AttributeError
  | ValueError
  | BackendError
  | StoreError.

Inductive result (A : Type) : Type :=
  | Ok (a : A)
  | Raise (e : exn).
Arguments Ok {A} a.
Arguments Raise {A} e.

(** Numeric view of a value: [bool] is a subtype of [int] in Python. *)
Definition num_of (v : value) : option Q :=
  match v with
  | VBool b => Some (inject_Z (if b then 1 else 0))
  | VInt z => Some (inject_Z z)
  | VFloat q => Some q
  | _ => None
  end.

(** [bool(v)]: the truth value used by [or], [not] and [if]. *)
Definition truthy (v : value) : bool :=
  match v with
  | VNone => false
  | VBool b => b
  | VInt z => negb (z =? 0)
  | VFloat q => negb (Qeq_bool q 0)
  | VStr s => negb (String.eqb s "")
  | VList l => match l with [] => false | _ => true end
  end.

(** [a or b] returns [a] when it is truthy and [b] otherwise. *)
Definition py_or (a b : value) : value := if truthy a then a else b.

(** [v is not None]. *)
Definition is_defined (v : value) : bool :=
  match v with VNone => false | _ => true end.

(** [a == b] on values: numbers compare by value, the rest structurally. *)
Fixpoint py_eqb (a b : value) : bool :=
  match a, b with
  | VNone, VNone => true
  | VStr s, VStr t => String.eqb s t
  | VList l, VList m =>
      (fix go (l m : list value) : bool :=
         match l, m with
         | [], [] => true
         | x :: l', y :: m' => py_eqb x y && go l' m'
         | _, _ => false
         end) l m
  | _, _ =>
      match num_of a, num_of b with
      | Some x, Some y => Qeq_bool x y
      | _, _ => false
      end
  end.

Definition Qltb (x y : Q) : bool := negb (Qle_bool y x).

(** [a < b] and [a > b] where [b] is an [int | None] attribute: Python
    raises [TypeError] unless both sides are numbers. *)
Definition py_lt (a b : value) : result bool :=
  match num_of a, num_of b with
  | Some x, Some y => Ok (Qltb x y)
  | _, _ => Raise TypeError
  end.

Definition py_gt (a b : value) : result bool := py_lt b a.

(** [a / 1000]: true division, always a float. *)
Definition py_div1000 (a : value) : result value :=
  match num_of a with
  | Some x => Ok (VFloat (Qred (x / 1000)))
  | None => Raise TypeError
  end.

Fixpoint str_repeat (n : nat) (s : string) : string :=
  match n with O => "" | S n' => String.append s (str_repeat n' s) end.

Fixpoint list_repeat {A} (n : nat) (l : list A) : list A :=
  match n with O => [] | S n' => l ++ list_repeat n' l end.

(** [a * 1000]: product of numbers, repetition of sequences. *)
Definition py_mul1000 (a : value) : result value :=
  match a with
  | VNone => Raise TypeError
  | VBool b => Ok (VInt (if b then 1000 else 0))
  | VInt z => Ok (VInt (z * 1000))
  | VFloat q => Ok (VFloat (Qred (q * 1000)))
  | VStr s => Ok (VStr (str_repeat 1000 s))
  | VList l => Ok (VList (list_repeat 1000 l))
  end.

(** Truncation towards zero, as [int(x)] does on a float. *)
Definition Qtrunc (q : Q) : Z := Z.quot (Qnum q) (Zpos (Qden q)).

(** [int(v)] for the annotated argument types (numbers); [int(None)] and
    [int([..])] raise [TypeError].  Strings are outside the annotations of
    the callers and are rejected with [ValueError]. *)
Definition py_int (v : value) : result value :=
  match v with
  | VBool b => Ok (VInt (if b then 1 else 0))
  | VInt z => Ok (VInt z)
  | VFloat q => Ok (VInt (Qtrunc q))
  | VStr _ => Raise ValueError
  | _ => Raise TypeError
  end.

(** [float(v)], same domain as [py_int]. *)
Definition py_float (v : value) : result value :=
  match v with
  | VStr _ => Raise ValueError
  | _ => match num_of v with
         | Some x => Ok (VFloat (Qred x))
         | None => Raise TypeError
         end
  end.

(** [v[i]] for a sequence. *)
Definition py_index (v : value) (i : nat) : result value :=
  match v with
  | VList l => match l !! i with Some x => Ok x | None => Raise IndexError end
  | _ => Raise TypeError
  end.

(** [a, b = v] for a tuple or list [v]. *)
Definition py_unpack2 (v : value) : result (value * value) :=
  match v with
  | VList [a; b] => Ok (a, b)
  | VList _ => Raise ValueError
  | _ => Raise TypeError
  end.

(** [a, b, c = v] for a tuple or list [v]. *)
Definition py_unpack3 (v : value) : result (value * value * value) :=
  match v with
  | VList [a; b; c] => Ok (a, b, c)
  | VList _ => Raise ValueError
  | _ => Raise TypeError
  end.

(** Modelled from the spec: [clamp] of [emulated_hue.utils] is not among the
    sources; the value is clamped into the closed interval [lo, hi].  A
    non-numeric argument cannot be compared and raises [TypeError]. *)
Definition clamp (v : value) (lo hi : Z) : result Q :=
  match num_of v with
  | Some x =>
      let upper := if Qle_bool x (inject_Z hi) then x else inject_Z hi in
      Ok (if Qle_bool (inject_Z lo) upper then upper else inject_Z lo)
  | None => Raise TypeError
  end.

End Py.
Export Py.

(** ** Entity state records *)

Module Models.

(** Modelled from the spec: [EntityState] and [ALL_STATES] of
    [controllers/models.py] are not among the sources.  The record has one
    optional field per state attribute ([VNone] is "unset"), an instance is
    truthy like any plain object, and equality is structural field by field.
    The attribute names are the ones [devices.py] reads and writes. *)
Record EntityState : Type := mkEntityState {
  power_state : value;
  reachable : value;
  transition_seconds : value;
  brightness : value;
  color_temp : value;
  color_mode : value;
  hue_saturation : value;
  xy_color : value;
  rgb_color : value;
  flash_state : value;
  effect : value
}.

Inductive field : Type :=
  | F_power_state
  | F_reachable
  | F_transition_seconds
  | F_brightness
  | F_color_temp
  | F_color_mode
  | F_hue_saturation
  | F_xy_color
  | F_rgb_color
  | F_flash_state
  | F_effect.

#[global] Instance field_eq_dec : EqDecision field.
Proof. solve_decision. Defined.

(** The attribute name of a field, the key under which it is saved. *)
Definition field_name (f : field) : string :=
  match f with
  | F_power_state => "power_state"
  | F_reachable => "reachable"
  | F_transition_seconds => "transition_seconds"
  | F_brightness => "brightness"
  | F_color_temp => "color_temp"
  | F_color_mode => "color_mode"
  | F_hue_saturation => "hue_saturation"
  | F_xy_color => "xy_color"
  | F_rgb_color => "rgb_color"
  | F_flash_state => "flash_state"
  | F_effect => "effect"
  end.

(** Modelled from the spec: [ALL_STATES], the recognized state fields. *)
Definition ALL_STATES : list field :=
  [F_power_state; F_reachable; F_transition_seconds; F_brightness;
   F_color_temp; F_color_mode; F_hue_saturation; F_xy_color; F_rgb_color;
   F_flash_state; F_effect].

(** [getattr(state, name)]. *)
Definition getattr (s : EntityState) (f : field) : value :=
  match f with
  | F_power_state => power_state s
  | F_reachable => reachable s
  | F_transition_seconds => transition_seconds s
  | F_brightness => brightness s
  | F_color_temp => color_temp s
  | F_color_mode => color_mode s
  | F_hue_saturation => hue_saturation s
  | F_xy_color => xy_color s
  | F_rgb_color => rgb_color s
  | F_flash_state => flash_state s
  | F_effect => effect s
  end.

(** [state.name = v]. *)
Definition setattr (f : field) (v : value) (s : EntityState) : EntityState :=
  match f with
  | F_power_state =>
      mkEntityState v (reachable s) (transition_seconds s) (brightness s)
        (color_temp s) (color_mode s) (hue_saturation s) (xy_color s)
        (rgb_color s) (flash_state s) (effect s)
  | F_reachable =>
      mkEntityState (power_state s) v (transition_seconds s) (brightness s)
        (color_temp s) (color_mode s) (hue_saturation s) (xy_color s)
        (rgb_color s) (flash_state s) (effect s)
  | F_transition_seconds =>
      mkEntityState (power_state s) (reachable s) v (brightness s)
        (color_temp s) (color_mode s) (hue_saturation s) (xy_color s)
        (rgb_color s) (flash_state s) (effect s)
  | F_brightness =>
      mkEntityState (power_state s) (reachable s) (transition_seconds s) v
        (color_temp s) (color_mode s) (hue_saturation s) (xy_color s)
        (rgb_color s) (flash_state s) (effect s)
  | F_color_temp =>
      mkEntityState (power_state s) (reachable s) (transition_seconds s)
        (brightness s) v (color_mode s) (hue_saturation s) (xy_color s)
        (rgb_color s) (flash_state s) (effect s)
  | F_color_mode =>
      mkEntityState (power_state s) (reachable s) (transition_seconds s)
        (brightness s) (color_temp s) v (hue_saturation s) (xy_color s)
        (rgb_color s) (flash_state s) (effect s)
  | F_hue_saturation =>
      mkEntityState (power_state s) (reachable s) (transition_seconds s)
        (brightness s) (color_temp s) (color_mode s) v (xy_color s)
        (rgb_color s) (flash_state s) (effect s)
  | F_xy_color =>
      mkEntityState (power_state s) (reachable s) (transition_seconds s)
        (brightness s) (color_temp s) (color_mode s) (hue_saturation s) v
        (rgb_color s) (flash_state s) (effect s)
  | F_rgb_color =>
      mkEntityState (power_state s) (reachable s) (transition_seconds s)
        (brightness s) (color_temp s) (color_mode s) (hue_saturation s)
        (xy_color s) v (flash_state s) (effect s)
  | F_flash_state =>
      mkEntityState (power_state s) (reachable s) (transition_seconds s)
        (brightness s) (color_temp s) (color_mode s) (hue_saturation s)
        (xy_color s) (rgb_color s) v (effect s)
  | F_effect =>
      mkEntityState (power_state s) (reachable s) (transition_seconds s)
        (brightness s) (color_temp s) (color_mode s) (hue_saturation s)
        (xy_color s) (rgb_color s) (flash_state s) v
  end.

(** [EntityState()] with every field left unset. *)
Definition empty_state : EntityState :=
  mkEntityState VNone VNone VNone VNone VNone VNone VNone VNone VNone VNone
    VNone.

(** [d.get(key, None)] on a dict with string keys. *)
Definition dict_get (d : gmap string value) (k : string) : value :=
  default VNone (d !! k).

(** The constructor call of [EntityState] with the entries of a dict [d]
    as keyword arguments, [d] having a key for each field. *)
Definition EntityState_of_dict (d : gmap string value) : EntityState :=
  mkEntityState
    (dict_get d (field_name F_power_state))
    (dict_get d (field_name F_reachable))
    (dict_get d (field_name F_transition_seconds))
    (dict_get d (field_name F_brightness))
    (dict_get d (field_name F_color_temp))
    (dict_get d (field_name F_color_mode))
    (dict_get d (field_name F_hue_saturation))
    (dict_get d (field_name F_xy_color))
    (dict_get d (field_name F_rgb_color))
    (dict_get d (field_name F_flash_state))
    (dict_get d (field_name F_effect)).

(** [a == b] on entity states. *)
Definition state_eqb (a b : EntityState) : bool :=
  forallb (fun f => py_eqb (getattr a f) (getattr b f)) ALL_STATES.

(** Modelled from the spec: [EntityState.to_hass_data] is not among the
    sources; the command payload carries the defined fields. *)
Definition to_hass_data (s : EntityState) : list (string * value) :=
  omap (fun f => if is_defined (getattr s f)
                 then Some (field_name f, getattr s f) else None) ALL_STATES.

End Models.
Export Models.

(** ** Devices, events and the device monad *)

Module Const.

(** Modelled from the spec: the constants of [emulated_hue.const] are not
    among the sources; these are the backend's names for the color modes and
    for the color temperature attribute. *)
Definition HASS_ATTR_COLOR_TEMP : string := "color_temp".
Definition HASS_COLOR_MODE_COLOR_TEMP : string := "color_temp".
Definition HASS_COLOR_MODE_HS : string := "hs".
Definition HASS_COLOR_MODE_XY : string := "xy".
Definition HASS_COLOR_MODE_RGB : string := "rgb".
Definition HASS_COLOR_MODE_RGBW : string := "rgbw".
Definition HASS_COLOR_MODE_RGBWW : string := "rgbww".
Definition HASS_COLOR_MODE_WHITE : string := "white".
Definition HASS_COLOR_MODE_BRIGHTNESS : string := "brightness".

End Const.

Module Dev.

(** The five device classes of the module. *)
Inductive class : Type :=
  | C_OnOff
  | C_Brightness
  | C_CT
  | C_RGB
  | C_RGBW.

#[global] Instance class_eq_dec : EqDecision class.
Proof. solve_decision. Defined.

(** Method resolution order of each class; [RGBWDevice(CTDevice, RGBDevice)]
    linearizes to RGBW, CT, RGB, Brightness, OnOff. *)
Definition mro (c : class) : list class :=
  match c with
  | C_OnOff => [C_OnOff]
  | C_Brightness => [C_Brightness; C_OnOff]
  | C_CT => [C_CT; C_Brightness; C_OnOff]
  | C_RGB => [C_RGB; C_Brightness; C_OnOff]
  | C_RGBW => [C_RGBW; C_CT; C_RGB; C_Brightness; C_OnOff]
  end.

(** The light configuration dict: the keys the device reads.  [cfg_state]
    is the saved ["state"] dict, absent before the first save. *)
Record Config : Type := mkConfig {
  cfg_name : value;
  cfg_uniqueid : value;
  cfg_enabled : value;
  cfg_throttle : option Z;
  cfg_state : option (gmap string value)
}.

Record Device : Type := mkDevice {
  cls : class;
  _light_id : string;
  _entity_id : string;
  _config : Config;
  _throttle_ms : option Z;
  _last_update : Q;
  _default_transition : value;
  _hass_state : option EntityState;
  _config_state : option EntityState;
  _control_state : gmap Z EntityState
}.

Definition with_control_state (m : gmap Z EntityState) (d : Device) : Device :=
  mkDevice (cls d) (_light_id d) (_entity_id d) (_config d) (_throttle_ms d)
    (_last_update d) (_default_transition d) (_hass_state d)
    (_config_state d) m.

Definition with_last_update (t : Q) (d : Device) : Device :=
  mkDevice (cls d) (_light_id d) (_entity_id d) (_config d) (_throttle_ms d)
    t (_default_transition d) (_hass_state d) (_config_state d)
    (_control_state d).

Definition with_saved_state (save : gmap string value) (d : Device) : Device :=
  mkDevice (cls d) (_light_id d) (_entity_id d)
    (mkConfig (cfg_name (_config d)) (cfg_uniqueid (_config d))
       (cfg_enabled (_config d)) (cfg_throttle (_config d)) (Some save))
    (_throttle_ms d) (_last_update d) (_default_transition d)
    (_hass_state d) (_config_state d) (_control_state d).

Definition with_config_state (s : EntityState) (d : Device) : Device :=
  mkDevice (cls d) (_light_id d) (_entity_id d) (_config d) (_throttle_ms d)
    (_last_update d) (_default_transition d) (_hass_state d) (Some s)
    (_control_state d).

(** Calls on the collaborators, in the order the code issues them. *)
Inductive event : Type :=
  | LogWarning (msg : string)
  | TurnOn (entity_id : string) (data : list (string * value))
  | TurnOff (entity_id : string) (data : list (string * value))
  | SaveConfig (light_id : string) (config : Config).

(** What the outside world answers during one call: the wall clock, and
    whether the backend and the store accept the request. *)
Record Env : Type := mkEnv {
  env_now : Q;
  env_hass_ok : bool;
  env_store_ok : bool
}.

Record Outcome (A : Type) : Type := mkOutcome {
  res : result A;
  dev : Device;
  trace : list event
}.
Arguments mkOutcome {A} res dev trace.
Arguments res {A} o.
Arguments dev {A} o.
Arguments trace {A} o.

(** A method call: it reads and writes [self], may raise, and leaves a
    trace.  Writes made before an exception stay. *)
Definition M (A : Type) : Type := Device -> Outcome A.

Definition ret {A} (a : A) : M A := fun d => mkOutcome (Ok a) d [].

Definition raise {A} (e : exn) : M A := fun d => mkOutcome (Raise e) d [].

Definition bind {A B} (m : M A) (k : A -> M B) : M B := fun d =>
  let o := m d in
  match res o with
  | Ok a =>
      let o' := k a (dev o) in
      mkOutcome (res o') (dev o') (trace o ++ trace o')
  | Raise e => mkOutcome (Raise e) (dev o) (trace o)
  end.

Definition get : M Device := fun d => mkOutcome (Ok d) d [].

Definition modify (f : Device -> Device) : M unit := fun d =>
  mkOutcome (Ok tt) (f d) [].

Definition emit (e : event) : M unit := fun d => mkOutcome (Ok tt) d [e].

Definition lift {A} (r : result A) : M A :=
  match r with Ok a => ret a | Raise e => raise e end.

Declare Scope dev_scope.
Delimit Scope dev_scope with dev.
Notation "'let*' x ':=' m 'in' k" := (bind m (fun x => k))
  (at level 10, x name, m at level 100, k at level 200) : dev_scope.
Local Open Scope dev_scope.

(** Control ids are [int | None] by annotation; the store key of an [int].
    Values of any other type lie outside the annotation and are rejected
    with [TypeError]. *)
Definition handle_key (control_id : value) : result Z :=
  match control_id with
  | VInt z => Ok z
  | _ => Raise TypeError
  end.

(** [int | None] attribute as a value. *)
Definition opt_int (o : option Z) : value :=
  match o with Some z => VInt z | None => VNone end.

End Dev.
Export Dev.

(** ** class OnOffDevice *)

Module OnOffDevice.
Local Open Scope dev_scope.

(** [__init__], from the throttling block on.  [DEFAULT_TRANSITION_SECONDS]
    is the constant of [emulated_hue.const], [now] the clock reading.  The
    comparison of the throttle with the default transition raises when the
    throttle is [None]. *)
Definition __init__ (c : class) (DEFAULT_TRANSITION_SECONDS : Q)
    (light_id entity_id : string) (config : Config) (now : Q)
    : result Device :=
  let throttle_ms := cfg_throttle config in
  match py_gt (opt_int throttle_ms) (VFloat DEFAULT_TRANSITION_SECONDS) with
  | Raise e => Raise e
  | Ok larger =>
      match (if larger then py_div1000 (opt_int throttle_ms)
             else Ok (VFloat DEFAULT_TRANSITION_SECONDS)) with
      | Raise e => Raise e
      | Ok default_transition =>
          Ok (mkDevice c light_id entity_id config throttle_ms now
                default_transition None None ∅)
      end
  end.

(** [max(keys) + 1] for a non-empty dict, else [0]. *)
Definition __next_control_state_id (m : gmap Z EntityState) : Z :=
  match (map_to_list m).*1 with
  | [] => 0
  | k :: ks => foldr Z.max k ks + 1
  end.

(** [self._config_state.power_state]: fails on [None]. *)
Definition config_state_attr (f : field) : M value :=
  let* d := get in
  match _config_state d with
  | Some s => ret (getattr s f)
  | None => raise AttributeError
  end.

(** [_new_control_state]: a falsy id ([None], but also [0]) is replaced by
    the next free id. *)
Definition _new_control_state (control_id : value) : M value :=
  let* d := get in
  let control_id :=
    if truthy control_id then control_id
    else VInt (__next_control_state_id (_control_state d)) in
  let* power := config_state_attr F_power_state in
  let* key := lift (handle_key control_id) in
  let seeded :=
    setattr F_transition_seconds (_default_transition d)
      (setattr F_power_state power empty_state) in
  let* _ := modify (with_control_state (<[key := seeded]> (_control_state d))) in
  ret control_id.

(** [cls._control_state.get(control_id)]. *)
Definition control_state_get (control_id : value) : M (option EntityState) :=
  let* d := get in
  match control_id with
  | VNone => ret None
  | _ =>
      let* key := lift (handle_key control_id) in
      ret (_control_state d !! key)
  end.

(** The decorator [ensure_control_state].  [args] are the positional
    arguments after [self] (so [args[1]] is index 0 here) and [kwargs] the
    keyword arguments; [func] receives the setting, the control id and the
    entry the id names. *)
Definition ensure_control_state
    (func : value -> value -> option EntityState -> M value)
    (args : list value) (kwargs : gmap string value) : M value :=
  let* a1 := lift (py_index (VList args) 0) in
  let setting := py_or a1 (dict_get kwargs "setting") in
  let* a2 := lift (py_index (VList args) 1) in
  let control_id := py_or a2 (dict_get kwargs "control_id") in
  let* control_id :=
    match control_id with
    | VNone => _new_control_state VNone
    | _ =>
        let* entry := control_state_get control_id in
        match entry with
        | Some _ => ret control_id
        | None =>
            let* _ := emit (LogWarning
              "Control id %s is not valid, creating a new one") in
            let* _ := _new_control_state control_id in
            ret control_id
        end
    end in
  let* entry := control_state_get control_id in
  func setting control_id entry.

(** An attribute assignment on the control state object a method received.
    The object is the entry of the store under [control_id], so the store
    sees the write; on [None] the assignment fails. *)
Definition assign (control_id : value) (__control_state : option EntityState)
    (f : field) (v : value) : M unit :=
  match __control_state with
  | None => raise AttributeError
  | Some _ =>
      let* key := lift (handle_key control_id) in
      modify (fun d =>
        with_control_state (alter (setattr f v) key (_control_state d)) d)
  end.

Definition set_transition_ms_body (transition_ms control_id : value)
    (__control_state : option EntityState) : M value :=
  let* d := get in
  let* shorter := lift (py_lt transition_ms (opt_int (_throttle_ms d))) in
  let transition_ms :=
    if shorter then opt_int (_throttle_ms d) else transition_ms in
  let* seconds := lift (py_div1000 transition_ms) in
  let* _ := assign control_id __control_state F_transition_seconds seconds in
  ret control_id.

Definition set_transition_ms : list value -> gmap string value -> M value :=
  ensure_control_state set_transition_ms_body.

(** Not decorated: the default [control_id=None] applies. *)
Definition set_transition_seconds (transition_seconds control_id : value)
    : M value :=
  let* ms := lift (py_mul1000 transition_seconds) in
  set_transition_ms [ms; control_id] ∅.

Definition set_power_state_body (power_state control_id : value)
    (__control_state : option EntityState) : M value :=
  let* _ := assign control_id __control_state F_power_state power_state in
  ret control_id.

Definition set_power_state : list value -> gmap string value -> M value :=
  ensure_control_state set_power_state_body.

(** [_async_save_config]: the write to the configuration store. *)
Definition _async_save_config (env : Env) : M unit :=
  let* d := get in
  let* _ := emit (SaveConfig (_light_id d) (_config d)) in
  if env_store_ok env then ret tt else raise StoreError.

(** The value the loop of [_async_update_config_states] picks for a field:
    the command's, then the backend's, then the saved one. *)
Definition best_value (control_state hass_state : option EntityState)
    (saved : gmap string value) (state : field) : value :=
  match control_state with
  | Some cs =>
      if is_defined (getattr cs state) then getattr cs state
      else
        match hass_state with
        | Some hs =>
            if is_defined (getattr hs state) then getattr hs state
            else dict_get saved (field_name state)
        | None => dict_get saved (field_name state)
        end
  | None =>
      match hass_state with
      | Some hs =>
          if is_defined (getattr hs state) then getattr hs state
          else dict_get saved (field_name state)
      | None => dict_get saved (field_name state)
      end
  end.

Definition _async_update_config_states (env : Env)
    (control_state : option EntityState) : M unit :=
  let* d := get in
  let saved := default ∅ (cfg_state (_config d)) in
  let save_state :=
    foldl (fun acc state =>
             <[field_name state :=
                 best_value control_state (_hass_state d) saved state]> acc)
          ∅ ALL_STATES in
  let* _ := modify (with_saved_state save_state) in
  let* _ := modify (with_config_state (EntityState_of_dict save_state)) in
  _async_save_config env.

(** [self._config_state == control_state]; [None] equals no state. *)
Definition config_state_equals (d : Device) (control_state : EntityState)
    : bool :=
  match _config_state d with
  | Some s => state_eqb s control_state
  | None => false
  end.

Definition _async_update_allowed (env : Env) (control_state : EntityState)
    : M bool :=
  let* d := get in
  match _throttle_ms d with
  | None => ret true
  | Some throttle_ms =>
      if throttle_ms =? 0 then ret true
      else if config_state_equals d control_state then ret false
      else
        let now_timestamp := env_now env in
        if Qltb (now_timestamp - _last_update d)
                (inject_Z throttle_ms / 1000)
        then ret false
        else
          let* _ := modify (with_last_update now_timestamp) in
          ret true
  end.

(** The backend calls; a refused call raises after it was issued. *)
Definition async_turn_on (env : Env) (entity_id : string)
    (data : list (string * value)) : M unit :=
  let* _ := emit (TurnOn entity_id data) in
  if env_hass_ok env then ret tt else raise BackendError.

Definition async_turn_off (env : Env) (entity_id : string)
    (data : list (string * value)) : M unit :=
  let* _ := emit (TurnOff entity_id data) in
  if env_hass_ok env then ret tt else raise BackendError.

Definition async_execute (env : Env) (control_id : Z) : M unit :=
  let* d := get in
  let control_state := _control_state d !! control_id in
  let* _ := modify (with_control_state (delete control_id (_control_state d))) in
  match control_state with
  | None => emit (LogWarning "No state to execute for device %s")
  | Some control_state =>
      let* allowed := _async_update_allowed env control_state in
      if negb allowed then ret tt
      else
        let* _ :=
          (if truthy (power_state control_state)
           then async_turn_on env (_entity_id d) (to_hass_data control_state)
           else async_turn_off env (_entity_id d) (to_hass_data control_state))
        in
        _async_update_config_states env (Some control_state)
  end.

End OnOffDevice.

(** ** class BrightnessDevice *)

Module BrightnessDevice.
Local Open Scope dev_scope.
Import OnOffDevice.

Definition set_brightness_body (brightness control_id : value)
    (__control_state : option EntityState) : M value :=
  let* clamped := lift (clamp brightness 1 255) in
  let* _ := assign control_id __control_state F_brightness
              (VInt (Qtrunc clamped)) in
  ret control_id.

Definition set_brightness : list value -> gmap string value -> M value :=
  ensure_control_state set_brightness_body.

Definition set_flash_body (flash control_id : value)
    (__control_state : option EntityState) : M value :=
  let* _ := assign control_id __control_state F_flash_state flash in
  ret control_id.

Definition set_flash : list value -> gmap string value -> M value :=
  ensure_control_state set_flash_body.

End BrightnessDevice.

(** ** super() *)

Module Super.

(** The classes that come after [c] in a resolution order. *)
Fixpoint after (c : class) (l : list class) : list class :=
  match l with
  | [] => []
  | c' :: rest => if decide (c' = c) then rest else after c rest
  end.

(** The classes whose body defines [set_flash]. *)
Definition defines_set_flash (c : class) : bool :=
  match c with
  | C_OnOff => false
  | _ => true
  end.

(** [super().set_flash] written inside class [c], on an instance of class
    [self_cls]: the first definition after [c] in the instance's order. *)
Definition super_set_flash (c self_cls : class) : option class :=
  head (filter (fun c' => defines_set_flash c' = true) (after c (mro self_cls))).

End Super.

(** ** class RGBDevice *)

Module RGBDevice.
Local Open Scope dev_scope.
Import OnOffDevice.

(** Property [color_mode] of RGBDevice. *)
Definition color_mode : M value :=
  let* v := config_state_attr F_color_mode in
  ret (py_or v (VStr Const.HASS_COLOR_MODE_XY)).

(** Property [hue_sat]. *)
Definition hue_sat : M value :=
  let* v := config_state_attr F_hue_saturation in
  ret (py_or v (VList [VInt 0; VInt 0])).

Definition set_hue_sat_body (hue_sat control_id : value)
    (__control_state : option EntityState) : M value :=
  let* hs := lift (py_unpack2 hue_sat) in
  let* hue := lift (py_int hs.1) in
  let* sat := lift (py_int hs.2) in
  let* _ := assign control_id __control_state F_hue_saturation
              (VList [hue; sat]) in
  let* _ := assign control_id __control_state F_color_mode
              (VStr Const.HASS_COLOR_MODE_HS) in
  ret control_id.

Definition set_hue_sat : list value -> gmap string value -> M value :=
  ensure_control_state set_hue_sat_body.

(** Property [xy_color]. *)
Definition xy_color : M value :=
  let* v := config_state_attr F_xy_color in
  ret (py_or v (VList [VInt 0; VInt 0])).

(** [set_xy] carries no decorator: nothing looks the entry up.  Called like
    the other writes, with a value and an optional handle, its third
    parameter [__control_state] keeps the default [None]. *)
Definition set_xy (x_y control_id : value) : M value :=
  let __control_state : option EntityState := None in
  let* xy := lift (py_unpack2 x_y) in
  let* x := lift (py_float xy.1) in
  let* y := lift (py_float xy.2) in
  let* _ := assign control_id __control_state F_xy_color (VList [x; y]) in
  let* _ := assign control_id __control_state F_color_mode
              (VStr Const.HASS_COLOR_MODE_XY) in
  ret control_id.

Definition set_rgb_body (r_g_b control_id : value)
    (__control_state : option EntityState) : M value :=
  let* rgb := lift (py_unpack3 r_g_b) in
  let* r := lift (py_int rgb.1.1) in
  let* g := lift (py_int rgb.1.2) in
  let* b := lift (py_int rgb.2) in
  let* _ := assign control_id __control_state F_rgb_color
              (VList [r; g; b]) in
  let* _ := assign control_id __control_state F_color_mode
              (VStr Const.HASS_COLOR_MODE_RGB) in
  ret control_id.

Definition set_rgb : list value -> gmap string value -> M value :=
  ensure_control_state set_rgb_body.

(** [set_flash] of RGBDevice; in every resolution order the definition
    that follows RGBDevice is the one of BrightnessDevice. *)
Definition set_flash (flash control_id : value) : M value :=
  let* d := get in
  let* control_id :=
    match Super.super_set_flash C_RGB (cls d) with
    | Some C_Brightness => BrightnessDevice.set_flash [flash; control_id] ∅
    | _ => raise AttributeError
    end in
  let* hs0 := hue_sat in
  let* h := lift (py_index hs0 0) in
  let* hs1 := hue_sat in
  let* s := lift (py_index hs1 1) in
  let* _ := set_hue_sat [VList [h; s]; control_id] ∅ in
  ret control_id.

Definition set_effect_body (effect control_id : value)
    (__control_state : option EntityState) : M value :=
  let* _ := assign control_id __control_state F_effect effect in
  ret control_id.

Definition set_effect : list value -> gmap string value -> M value :=
  ensure_control_state set_effect_body.

End RGBDevice.

(** ** class CTDevice *)

Module CTDevice.
Local Open Scope dev_scope.
Import OnOffDevice.

(** Property [color_mode] of CTDevice, also the one an RGBWDevice
    resolves to. *)
Definition color_mode : M value :=
  let* v := config_state_attr F_color_mode in
  ret (py_or v (VStr Const.HASS_ATTR_COLOR_TEMP)).

(** Property [color_temp]. *)
Definition color_temp : M value :=
  let* v := config_state_attr F_color_temp in
  ret (py_or v (VInt 153)).

Definition set_color_temperature_body (color_temperature control_id : value)
    (__control_state : option EntityState) : M value :=
  let* _ := assign control_id __control_state F_color_temp
              color_temperature in
  let* _ := assign control_id __control_state F_color_mode
              (VStr Const.HASS_COLOR_MODE_COLOR_TEMP) in
  ret control_id.

Definition set_color_temperature
    : list value -> gmap string value -> M value :=
  ensure_control_state set_color_temperature_body.

(** [set_flash] of CTDevice.  On a CTDevice [super()] is BrightnessDevice;
    on an RGBWDevice it is RGBDevice, the next class in the order. *)
Definition set_flash (flash control_id : value) : M value :=
  let* d := get in
  let* control_id :=
    match Super.super_set_flash C_CT (cls d) with
    | Some C_Brightness => BrightnessDevice.set_flash [flash; control_id] ∅
    | Some C_RGB => RGBDevice.set_flash flash control_id
    | _ => raise AttributeError
    end in
  let* ct := color_temp in
  let* _ := set_color_temperature [ct; control_id] ∅ in
  ret control_id.

End CTDevice.

(** ** class RGBWDevice *)

Module RGBWDevice.
Local Open Scope dev_scope.

(** [self.color_mode == const.HASS_ATTR_COLOR_TEMP] chooses the layer. *)
Definition set_flash (flash control_id : value) : M value :=
  let* mode := CTDevice.color_mode in
  if py_eqb mode (VStr Const.HASS_ATTR_COLOR_TEMP)
  then CTDevice.set_flash flash control_id
  else RGBDevice.set_flash flash control_id.

End RGBWDevice.

(** ** The factory *)

Module Factory.
Import Const.

(** [any(color_mode in allowed for color_mode in entity_color_modes)]. *)
Definition any_in (allowed entity_color_modes : list string) : bool :=
  existsb (fun color_mode => existsb (String.eqb color_mode) allowed)
    entity_color_modes.

(** The class [async_get_device] instantiates for the supported color
    modes of an entity: its chain of [if]/[elif] tests. *)
Definition device_class (entity_color_modes : list string) : class :=
  if any_in [HASS_COLOR_MODE_HS; HASS_COLOR_MODE_XY; HASS_COLOR_MODE_RGB;
             HASS_COLOR_MODE_RGBW; HASS_COLOR_MODE_RGBWW] entity_color_modes
     && any_in [HASS_COLOR_MODE_COLOR_TEMP; HASS_COLOR_MODE_RGBW;
                HASS_COLOR_MODE_RGBWW; HASS_COLOR_MODE_WHITE]
          entity_color_modes
  then C_RGBW
  else if any_in [HASS_COLOR_MODE_HS; HASS_COLOR_MODE_XY;
                  HASS_COLOR_MODE_RGB] entity_color_modes
  then C_RGB
  else if existsb (String.eqb HASS_COLOR_MODE_COLOR_TEMP) entity_color_modes
  then C_CT
  else if existsb (String.eqb HASS_COLOR_MODE_BRIGHTNESS) entity_color_modes
  then C_Brightness
  else C_OnOff.

End Factory.

(** ** class Device: the metadata of the physical device *)

Module Metadata.

(** The value under ["identifiers"] in the attributes of a device: absent,
    a dict (only its keys matter, in iteration order), or any other value. *)
Inductive identifiers : Type :=
  | IdMissing
  | IdDict (keys : list string)
  | IdValue (v : value).

(** The attribute dict [get_device_attributes] answers; [VNone] and
    [IdMissing] stand for an absent key, as [dict.get] reads them. *)
Record DeviceAttributes : Type := mkDeviceAttributes {
  attr_manufacturer : value;
  attr_model : value;
  attr_name : value;
  attr_sw_version : value;
  attr_identifiers : identifiers
}.

(** The empty dict [{}]. *)
Definition no_attributes : DeviceAttributes :=
  mkDeviceAttributes VNone VNone VNone VNone IdMissing.

(** An instance of the class [Device]. *)
Record DeviceProperties : Type := mkDeviceProperties {
  _device_id : value;
  _device_attributes : DeviceAttributes;
  _unique_id : value
}.

(** [key, value = k] for a string [k]: its two characters. *)
Definition unpack_str2 (k : string) : result (string * string) :=
  match k with
  | String a (String b EmptyString) =>
      Ok (String a EmptyString, String b EmptyString)
  | _ => Raise ValueError
  end.

(** [for key, value in identifiers] over a dict: the loop runs over the
    keys and unpacks each key. *)
Fixpoint dict_loop (keys : list string) (unique_id : value) : result value :=
  match keys with
  | [] => Ok unique_id
  | k :: rest =>
      match unpack_str2 k with
      | Ok (key, value) =>
          dict_loop rest
            (if String.eqb key "zha" then VStr value else unique_id)
      | Raise e => Raise e
      end
  end.

(** [for identifier in identifiers] over a list: the first element that is
    a list gives its last item, the first that is a string gives itself. *)
Fixpoint list_loop (l : list value) : result value :=
  match l with
  | [] => Ok VNone
  | VList inner :: _ =>
      match last inner with
      | Some item => Ok item
      | None => Raise IndexError
      end
  | VStr s :: _ => Ok (VStr s)
  | _ :: rest => list_loop rest
  end.

(** The walrus test and the two [isinstance] branches. *)
Definition find_unique_id (ids : identifiers) : result value :=
  match ids with
  | IdMissing => Ok VNone
  | IdDict [] => Ok VNone
  | IdDict keys => dict_loop keys VNone
  | IdValue v =>
      if truthy v
      then match v with
           | VList l => list_loop l
           | _ => Ok VNone
           end
      else Ok VNone
  end.

(** [Device.__init__]: [device_id] is what the backend answers for the
    entity, [attributes] what it answers for that device id. *)
Definition __init__ (device_id : value) (attributes : DeviceAttributes)
    : result DeviceProperties :=
  let device_attributes :=
    if truthy device_id then attributes else no_attributes in
  match find_unique_id (attr_identifiers device_attributes) with
  | Ok unique_id => Ok (mkDeviceProperties device_id device_attributes unique_id)
  | Raise e => Raise e
  end.





Definition unique_id (p : DeviceProperties) : value := _unique_id p.

End Metadata.

(** ** Refreshing the backend state *)

Module Refresh.
Local Open Scope dev_scope.
Import OnOffDevice.

(** The state dict [get_entity_state] answers: the entry ["state"] and the
    attributes the devices read with [dict.get] ([VNone] when absent). *)
Record HassStateDict : Type := mkHassStateDict {
  hsd_state : value;
  hsd_brightness : value;
  hsd_color_temp : value;
  hsd_color_mode : value;
  hsd_hs_color : value;
  hsd_xy_color : value;
  hsd_rgb_color : value;
  hsd_supported_color_modes : list string
}.

Definition with_hass_state (s : EntityState) (d : Device) : Device :=
  mkDevice (cls d) (_light_id d) (_entity_id d) (_config d) (_throttle_ms d)
    (_last_update d) (_default_transition d) (Some s) (_config_state d)
    (_control_state d).

(** [self._hass_state.name = v]: fails while there is no backend state. *)
Definition hass_assign (f : field) (v : value) : M unit :=
  let* d := get in
  match _hass_state d with
  | Some s => modify (with_hass_state (setattr f v s))
  | None => raise AttributeError
  end.

(** The class whose [_update_device_state] a [super()] call written in
    class [c] reaches on an instance of class [self_cls]; every class
    defines the method. *)
Definition super_update (c self_cls : class) : option class :=
  head (Super.after c (mro self_cls)).

Section StateNames.

(** The names [const.HASS_STATE_ON] and [const.HASS_STATE_UNAVAILABLE]. *)
Variables HASS_STATE_ON HASS_STATE_UNAVAILABLE : string.

Definition OnOffDevice_update_device_state (hass_state_dict : HassStateDict)
    (full_update : bool) : M unit :=
  if full_update
  then
    let* d := get in
    modify (with_hass_state
      (mkEntityState
         (VBool (py_eqb (hsd_state hass_state_dict) (VStr HASS_STATE_ON)))
         (VBool (negb (py_eqb (hsd_state hass_state_dict)
                         (VStr HASS_STATE_UNAVAILABLE))))
         (_default_transition d)
         VNone VNone VNone VNone VNone VNone VNone VNone))
  else ret tt.

Definition BrightnessDevice_update_device_state
    (hass_state_dict : HassStateDict) (full_update : bool) : M unit :=
  let* d := get in
  let* _ :=
    match super_update C_Brightness (cls d) with
    | Some C_OnOff =>
        OnOffDevice_update_device_state hass_state_dict full_update
    | _ => raise AttributeError
    end in
  hass_assign F_brightness (hsd_brightness hass_state_dict).

Definition RGBDevice_update_device_state (hass_state_dict : HassStateDict)
    (full_update : bool) : M unit :=
  let* d := get in
  let* _ :=
    match super_update C_RGB (cls d) with
    | Some C_Brightness =>
        BrightnessDevice_update_device_state hass_state_dict full_update
    | _ => raise AttributeError
    end in
  let* _ := hass_assign F_hue_saturation (hsd_hs_color hass_state_dict) in
  let* _ := hass_assign F_xy_color (hsd_xy_color hass_state_dict) in
  let* _ := hass_assign F_rgb_color (hsd_rgb_color hass_state_dict) in
  hass_assign F_color_mode (hsd_color_mode hass_state_dict).

Definition CTDevice_update_device_state (hass_state_dict : HassStateDict)
    (full_update : bool) : M unit :=
  let* d := get in
  let* _ :=
    match super_update C_CT (cls d) with
    | Some C_Brightness =>
        BrightnessDevice_update_device_state hass_state_dict full_update
    | Some C_RGB => RGBDevice_update_device_state hass_state_dict full_update
    | _ => raise AttributeError
    end in
  let* _ := hass_assign F_color_temp (hsd_color_temp hass_state_dict) in
  hass_assign F_color_mode (hsd_color_mode hass_state_dict).

Definition RGBWDevice_update_device_state (hass_state_dict : HassStateDict)
    (full_update : bool) : M unit :=
  let* _ := CTDevice_update_device_state hass_state_dict true in
  RGBDevice_update_device_state hass_state_dict false.

(** [self._update_device_state(full_update)]: the method of the class of
    the instance. *)
Definition _update_device_state (hass_state_dict : HassStateDict)
    (full_update : bool) : M unit :=
  let* d := get in
  match cls d with
  | C_OnOff => OnOffDevice_update_device_state hass_state_dict full_update
  | C_Brightness =>
      BrightnessDevice_update_device_state hass_state_dict full_update
  | C_CT => CTDevice_update_device_state hass_state_dict full_update
  | C_RGB => RGBDevice_update_device_state hass_state_dict full_update
  | C_RGBW => RGBWDevice_update_device_state hass_state_dict full_update
  end.

(** [async_update_state].  [hass_state_dict] is the answer of
    [get_entity_state]; the attribute that holds it is written here just
    before the update reads it. *)
Definition async_update_state (env : Env) (hass_state_dict : HassStateDict)
    (full_update : bool) : M unit :=
  let* d := get in
  if truthy (cfg_enabled (_config d))
     || match _config_state d with Some _ => false | None => true end
  then
    let* _ := _update_device_state hass_state_dict full_update in
    _async_update_config_states env None
  else ret tt.

(** [async_get_device] on a cache miss: the class is chosen from the
    supported color modes, the device constructed (its metadata first, as
    the constructor does) and refreshed once in full.  [device_id] and
    [attributes] are the backend's answers about the physical device.
    [Raise] is a failing constructor; otherwise the metadata come with the
    outcome of the refresh on the new device. *)
Definition async_get_device (DEFAULT_TRANSITION_SECONDS : Q)
    (light_id entity_id : string) (config : Config)
    (device_id : value) (attributes : Metadata.DeviceAttributes)
    (hass_state_dict : HassStateDict) (now : Q) (env : Env)
    : result (Metadata.DeviceProperties * Outcome unit) :=
  match Metadata.__init__ device_id attributes with
  | Ok properties =>
      match OnOffDevice.__init__
              (Factory.device_class
                 (hsd_supported_color_modes hass_state_dict))
              DEFAULT_TRANSITION_SECONDS light_id entity_id config now with
      | Ok device_obj =>
          Ok (properties,
              async_update_state env hass_state_dict true device_obj)
      | Raise e => Raise e
      end
  | Raise e => Raise e
  end.

End StateNames.

End Refresh.

(** ** Read properties of the devices *)

Module Properties.
Local Open Scope dev_scope.
Import OnOffDevice.

(** Property [brightness] of BrightnessDevice. *)
Definition brightness : M value :=
  let* v := config_state_attr F_brightness in
  ret (py_or v (VInt 0)).

End Properties.

(** * Vocabulary of the properties *)

(** The supported modes contain at least one of the allowed ones. *)
Definition contains_any (modes allowed : list string) : Prop :=
  ∃ m, m ∈ modes ∧ m ∈ allowed.

Definition color_modes : list string := ["hs"; "xy"; "rgb"; "rgbw"; "rgbww"].
Definition white_modes : list string := ["color_temp"; "rgbw"; "rgbww"; "white"].
Definition plain_color_modes : list string := ["hs"; "xy"; "rgb"].

(** The decision order of the factory, first match wins. *)
Inductive selects (modes : list string) : class -> Prop :=
  | selects_rgbw :
      contains_any modes color_modes ->
      contains_any modes white_modes ->
      selects modes C_RGBW
  | selects_rgb :
      ¬ (contains_any modes color_modes ∧ contains_any modes white_modes) ->
      contains_any modes plain_color_modes ->
      selects modes C_RGB
  | selects_ct :
      ¬ (contains_any modes color_modes ∧ contains_any modes white_modes) ->
      ¬ contains_any modes plain_color_modes ->
      "color_temp" ∈ modes ->
      selects modes C_CT
  | selects_brightness :
      ¬ (contains_any modes color_modes ∧ contains_any modes white_modes) ->
      ¬ contains_any modes plain_color_modes ->
      "color_temp" ∉ modes ->
      "brightness" ∈ modes ->
      selects modes C_Brightness
  | selects_onoff :
      ¬ (contains_any modes color_modes ∧ contains_any modes white_modes) ->
      ¬ contains_any modes plain_color_modes ->
      "color_temp" ∉ modes ->
      "brightness" ∉ modes ->
      selects modes C_OnOff.

(** [k] is the largest handle of the control-state store. *)
Definition is_max_handle (m : gmap Z EntityState) (k : Z) : Prop :=
  k ∈ dom m ∧ ∀ k', k' ∈ dom m -> k' <= k.

(** The entry [_new_control_state] seeds: the persisted power state and the
    default transition time of the device, everything else unset. *)
Definition seeded_entry (d : Device) (s : EntityState) : EntityState :=
  mkEntityState (power_state s) VNone (_default_transition d) VNone VNone
    VNone VNone VNone VNone VNone VNone.

(** The value a field has in a state that may be missing; a missing state
    defines nothing. *)
Definition field_of (o : option EntityState) (f : field) : value :=
  match o with
  | Some s => getattr s f
  | None => VNone
  end.

(** Merge precedence of one field: the control value if defined, else the
    backend value if defined, else the previous persisted value (which is
    [VNone] when unset). *)
Inductive reconciled (control backend persisted : value) : value -> Prop :=
  | reconciled_control :
      control ≠ VNone -> reconciled control backend persisted control
  | reconciled_backend :
      control = VNone -> backend ≠ VNone ->
      reconciled control backend persisted backend
  | reconciled_persisted :
      control = VNone -> backend = VNone ->
      reconciled control backend persisted persisted.

(** The warning of a commit that finds nothing to execute. *)
Definition no_state_warning : event :=
  LogWarning "No state to execute for device %s".

(** A backend command was issued. *)
Definition is_dispatch (e : event) : bool :=
  match e with
  | TurnOn _ _ | TurnOff _ _ => true
  | _ => false
  end.

(** A staged brightness within the range 1 to 255. *)
Definition brightness_in_range (v : value) : Prop :=
  ∃ z, v = VInt z ∧ 1 <= z <= 255.

(** The warning of a write that is handed an unknown handle. *)
Definition stale_warning : event :=
  LogWarning "Control id %s is not valid, creating a new one".

(** What the decorator may have done to the store before the method body
    runs: nothing, or one entry seeded from the persisted state. *)
Definition ensured (d d1 : Device) : Prop :=
  d1 = d ∨
  ∃ k s, _config_state d = Some s ∧
         d1 = with_control_state
                (<[k := seeded_entry d s]> (_control_state d)) d.

(** ** Vocabulary of the further properties *)

(** An element the loop over a list of identifiers passes over. *)
Definition passed_over (v : value) : Prop :=
  match v with
  | VList _ | VStr _ => False
  | _ => True
  end.

(** The fields the refresh of a class reads from the attributes of the
    backend's state dict. *)
Definition reports (c : class) (f : field) : bool :=
  match f, c with
  | F_brightness, (C_Brightness | C_CT | C_RGB | C_RGBW) => true
  | F_color_temp, (C_CT | C_RGBW) => true
  | F_color_mode, (C_CT | C_RGB | C_RGBW) => true
  | (F_hue_saturation | F_xy_color | F_rgb_color), (C_RGB | C_RGBW) => true
  | _, _ => false
  end.

(** The attribute of the state dict a field is read from. *)
Definition reported (snap : Refresh.HassStateDict) (f : field) : value :=
  match f with
  | F_brightness => Refresh.hsd_brightness snap
  | F_color_temp => Refresh.hsd_color_temp snap
  | F_color_mode => Refresh.hsd_color_mode snap
  | F_hue_saturation => Refresh.hsd_hs_color snap
  | F_xy_color => Refresh.hsd_xy_color snap
  | F_rgb_color => Refresh.hsd_rgb_color snap
  | _ => VNone
  end.

(** A device is refreshed when it is enabled or has no persisted state. *)
Definition refreshes (d : Device) : Prop :=
  truthy (cfg_enabled (_config d)) = true ∨ _config_state d = None.

(** The attributes of a physical device with one pair of identifiers. *)
Definition sample_attributes : Metadata.DeviceAttributes :=
  Metadata.mkDeviceAttributes (VStr "Signify") (VStr "LCT015") (VStr "Lamp")
    (VStr "1.88.1")
    (Metadata.IdValue (VList [VList [VStr "hue"; VStr "00:17:88"]])).

(** A state dict of a lamp that is on, at brightness 200, in mode xy. *)
Definition sample_state_dict : Refresh.HassStateDict :=
  Refresh.mkHassStateDict (VStr "on") (VInt 200) VNone (VStr "xy") VNone
    (VList [VFloat (3 # 10); VFloat (3 # 10)]) VNone ["color_temp"; "xy"].

(** The value a full refresh gives a field of the backend state: power and
    reachability from the entry ["state"], the default transition time, the
    reported attributes of the class, and nothing for the other fields. *)
Definition refreshed_field (on unavailable : string) (d : Device)
    (snap : Refresh.HassStateDict) (f : field) : value :=
  match f with
  | F_power_state => VBool (py_eqb (Refresh.hsd_state snap) (VStr on))
  | F_reachable =>
      VBool (negb (py_eqb (Refresh.hsd_state snap) (VStr unavailable)))
  | F_transition_seconds => _default_transition d
  | _ => if reports (cls d) f then reported snap f else VNone
  end.

(** The backend state after a full refresh. *)
Definition refreshed_state (on unavailable : string) (d : Device)
    (snap : Refresh.HassStateDict) : EntityState :=
  mkEntityState
    (refreshed_field on unavailable d snap F_power_state)
    (refreshed_field on unavailable d snap F_reachable)
    (refreshed_field on unavailable d snap F_transition_seconds)
    (refreshed_field on unavailable d snap F_brightness)
    (refreshed_field on unavailable d snap F_color_temp)
    (refreshed_field on unavailable d snap F_color_mode)
    (refreshed_field on unavailable d snap F_hue_saturation)
    (refreshed_field on unavailable d snap F_xy_color)
    (refreshed_field on unavailable d snap F_rgb_color)
    (refreshed_field on unavailable d snap F_flash_state)
    (refreshed_field on unavailable d snap F_effect).

(** The backend state after a partial refresh of a state [hs]: only the
    reported attributes of the class are read again. *)
Definition partly_refreshed_state (c : class) (hs : EntityState)
    (snap : Refresh.HassStateDict) : EntityState :=
  let pick f := if reports c f then reported snap f else getattr hs f in
  mkEntityState (pick F_power_state) (pick F_reachable)
    (pick F_transition_seconds) (pick F_brightness) (pick F_color_temp)
    (pick F_color_mode) (pick F_hue_saturation) (pick F_xy_color)
    (pick F_rgb_color) (pick F_flash_state) (pick F_effect).

(** The backend command a commit of [control_state] issues: power-on when
    its power state is truthy, power-off otherwise, with its payload. *)
Definition dispatch_of (entity_id : string) (control_state : EntityState)
    : event :=
  if truthy (power_state control_state)
  then TurnOn entity_id (to_hass_data control_state)
  else TurnOff entity_id (to_hass_data control_state).

(** The device after the throttle gate allowed a dispatch: with throttling
    on, the time of the dispatch is recorded. *)
Definition after_gate (env : Env) (d : Device) : Device :=
  match _throttle_ms d with
  | Some t => if t =? 0 then d else with_last_update (env_now env) d
  | None => d
  end.

(** The bodies of the decorated writes. *)
Definition write_bodies
    : list (value -> value -> option EntityState -> M value) :=
  [OnOffDevice.set_transition_ms_body; OnOffDevice.set_power_state_body;
   BrightnessDevice.set_brightness_body; BrightnessDevice.set_flash_body;
   CTDevice.set_color_temperature_body; RGBDevice.set_hue_sat_body;
   RGBDevice.set_rgb_body; RGBDevice.set_effect_body].

(** The device with a seeded entry added under handle [k]. *)
Definition with_seeded (k : Z) (s : EntityState) (d : Device) : Device :=
  with_control_state (<[k := seeded_entry d s]> (_control_state d)) d.


(** A method body keeps to its own entry: it leaves the entries under other
    handles alone, removes nothing, returns its handle and changes nothing
    when it raises. *)
Definition keeps_to_own_entry
    (func : value -> value -> option EntityState -> M value) : Prop :=
  ∀ (setting : value) (key : Z) (d : Device),
    let o := func setting (VInt key) (_control_state d !! key) d in
    (∀ k, k ≠ key -> _control_state (dev o) !! k = _control_state d !! k) ∧
    (is_Some (_control_state d !! key) ->
     is_Some (_control_state (dev o) !! key)) ∧
    (∀ v, res o = Ok v -> v = VInt key) ∧
    (∀ e, res o = Raise e -> dev o = d).

(** ** Sample devices *)

Module Sample.

(** A light configuration with a throttle setting and no saved state. *)
Definition config (throttle : option Z) : Config :=
  mkConfig (VStr "Lamp") (VStr "00:17:88:01:00:aa:bb:cc-0b") (VBool true)
    throttle None.

(** A persisted state: on, color temperature 300 in mode color_temp, hue and
    saturation 10 and 20. *)
Definition persisted : EntityState :=
  mkEntityState (VBool true) (VBool true) (VFloat (2 # 5)) (VInt 128)
    (VInt 300) (VStr "color_temp") (VList [VInt 10; VInt 20]) VNone VNone
    VNone VNone.

(** A refreshed device of class [c] whose backend and persisted state are
    [persisted], with the given throttle and control-state store. *)
Definition device (c : class) (throttle : option Z)
    (store : gmap Z EntityState) : Device :=
  mkDevice c "1" "light.lamp" (config throttle) throttle 0 (VFloat (2 # 5))
    (Some persisted) (Some persisted) store.

(** The entry a fresh handle of such a device starts from. *)
Definition seed : EntityState :=
  mkEntityState (VBool true) VNone (VFloat (2 # 5)) VNone VNone VNone VNone
    VNone VNone VNone VNone.

(** A seeded entry with the power state switched off. *)
Definition seed_off : EntityState := setattr F_power_state (VBool false) seed.

End Sample.

(** * Properties *)

(** ** Laws of the device monad *)

Lemma outcome_eta {A} (o : Outcome A) :
  mkOutcome (res o) (dev o) (trace o) = o.
Proof. by destruct o. Qed.

Section MonadLaws.
Context {A B : Type}.

Lemma bind_get (k : Device -> M B) (d : Device) : bind get k d = k d d.
Proof. unfold bind, get. simpl. apply outcome_eta. Qed.

Lemma bind_ret (a : A) (k : A -> M B) (d : Device) : bind (ret a) k d = k a d.
Proof. unfold bind, ret. simpl. by destruct (k a d). Qed.

Lemma bind_modify (f : Device -> Device) (k : unit -> M B) (d : Device) :
  bind (modify f) k d = k tt (f d).
Proof. unfold bind, modify. simpl. by destruct (k tt (f d)). Qed.

Lemma bind_raise (e : exn) (k : A -> M B) (d : Device) :
  bind (raise e) k d = mkOutcome (Raise e) d [].
Proof. reflexivity. Qed.

Lemma bind_emit (e : event) (k : unit -> M B) (d : Device) :
  bind (emit e) k d =
    mkOutcome (res (k tt d)) (dev (k tt d)) (e :: trace (k tt d)).
Proof. reflexivity. Qed.

Lemma bind_lift_ok (a : A) (k : A -> M B) (d : Device) :
  bind (lift (Ok a)) k d = k a d.
Proof. apply bind_ret. Qed.

Lemma bind_lift_raise (e : exn) (k : A -> M B) (d : Device) :
  bind (lift (Raise e)) k d = mkOutcome (Raise e) d [].
Proof. reflexivity. Qed.

Lemma bind_outcome_ok (m : M A) (k : A -> M B) (d d1 : Device) (a : A)
    (tr : list event) :
  m d = mkOutcome (Ok a) d1 tr ->
  bind m k d =
    mkOutcome (res (k a d1)) (dev (k a d1)) (tr ++ trace (k a d1)).
Proof. intros E. unfold bind. by rewrite E. Qed.

Lemma bind_outcome_raise (m : M A) (k : A -> M B) (d d1 : Device) (e : exn)
    (tr : list event) :
  m d = mkOutcome (Raise e) d1 tr ->
  bind m k d = mkOutcome (Raise e) d1 tr.
Proof. intros E. unfold bind. by rewrite E. Qed.

Lemma bind_silent_ok (m : M A) (k : A -> M B) (d d1 : Device) (a : A) :
  m d = mkOutcome (Ok a) d1 [] -> bind m k d = k a d1.
Proof. intros E. unfold bind. rewrite E. simpl. apply outcome_eta. Qed.

End MonadLaws.

Lemma bind_assoc {A B C} (m : M A) (f : A -> M B) (g : B -> M C)
    (d : Device) :
  bind (bind m f) g d = bind m (fun x => bind (f x) g) d.
Proof.
  unfold bind. destruct (m d) as [[a|e] d1 tr]; simpl; [|done].
  destruct (f a d1) as [[b|e] d2 tr2]; simpl; [|done].
  by rewrite app_assoc.
Qed.

(** One step of a method body: the leading read, write, log or pure
    computation of a sequence is performed. *)
Ltac mstep :=
  first [ rewrite bind_get | rewrite bind_ret | rewrite bind_modify
        | rewrite bind_raise | rewrite bind_emit | rewrite bind_lift_ok
        | rewrite bind_lift_raise ].
Ltac msteps := repeat mstep.

(** ** Type inference of the factory *)

Section FactoryProperties.
Import Const Factory.

Lemma existsb_eqb_elem_of (s : string) (l : list string) :
  existsb (String.eqb s) l = true ↔ s ∈ l.
Proof.
  rewrite existsb_exists. split.
  - intros (x & Hin & Heq). apply String.eqb_eq in Heq. subst x.
    by apply list_elem_of_In.
  - intros Hin. exists s. split; [by apply list_elem_of_In|].
    apply String.eqb_refl.
Qed.

Lemma any_in_contains_any (allowed modes : list string) :
  any_in allowed modes = true ↔ contains_any modes allowed.
Proof.
  unfold any_in, contains_any. rewrite existsb_exists. split.
  - intros (m & Hin & Hex). exists m. split; [by apply list_elem_of_In|].
    by apply existsb_eqb_elem_of.
  - intros (m & Hin & Hal). exists m. split; [by apply list_elem_of_In|].
    by apply existsb_eqb_elem_of.
Qed.

Lemma selects_device_class (modes : list string) :
  selects modes (device_class modes).
Proof.
  unfold device_class.
  change [HASS_COLOR_MODE_HS; HASS_COLOR_MODE_XY; HASS_COLOR_MODE_RGB;
          HASS_COLOR_MODE_RGBW; HASS_COLOR_MODE_RGBWW] with color_modes.
  change [HASS_COLOR_MODE_COLOR_TEMP; HASS_COLOR_MODE_RGBW;
          HASS_COLOR_MODE_RGBWW; HASS_COLOR_MODE_WHITE] with white_modes.
  change [HASS_COLOR_MODE_HS; HASS_COLOR_MODE_XY; HASS_COLOR_MODE_RGB]
    with plain_color_modes.
  change HASS_COLOR_MODE_COLOR_TEMP with "color_temp".
  change HASS_COLOR_MODE_BRIGHTNESS with "brightness".
  destruct (any_in color_modes modes && any_in white_modes modes) eqn:Hrgbw.
  { apply andb_true_iff in Hrgbw as [H1 H2].
    constructor; by apply any_in_contains_any. }
  assert (¬ (contains_any modes color_modes ∧ contains_any modes white_modes))
    as Hno.
  { intros [H1 H2]. apply any_in_contains_any in H1, H2.
    apply andb_false_iff in Hrgbw as [E|E]; congruence. }
  destruct (any_in plain_color_modes modes) eqn:Hrgb.
  { apply selects_rgb; [done|]. by apply any_in_contains_any. }
  assert (¬ contains_any modes plain_color_modes) as Hnorgb.
  { intros H. apply any_in_contains_any in H. congruence. }
  destruct (existsb (String.eqb "color_temp") modes) eqn:Hct.
  { apply selects_ct; [done..|]. by apply existsb_eqb_elem_of. }
  assert ("color_temp" ∉ modes) as Hnoct.
  { intros H. apply existsb_eqb_elem_of in H. congruence. }
  destruct (existsb (String.eqb "brightness") modes) eqn:Hbr.
  { apply selects_brightness; [done..|]. by apply existsb_eqb_elem_of. }
  apply selects_onoff; [done..|].
  intros H. apply existsb_eqb_elem_of in H. congruence.
Qed.

Lemma selects_functional (modes : list string) (c1 c2 : class) :
  selects modes c1 -> selects modes c2 -> c1 = c2.
Proof.
  intros H1 H2. destruct H1; destruct H2; try done; tauto.
Qed.

End FactoryProperties.

(** C8. For every list of supported color modes the factory selects exactly
    one class, by first match: RGBW when the list has a color mode and a
    white mode, else RGB on a plain color mode, else CT on color_temp, else
    Brightness on brightness, else OnOff; and the five rows of the truth
    table evaluate as listed. *)
Theorem factory_selects_first_match :
  (∀ modes : list string,
     selects modes (Factory.device_class modes) ∧
     ∀ c, selects modes c ↔ c = Factory.device_class modes) ∧
  Factory.device_class [] = C_OnOff ∧
  Factory.device_class ["brightness"] = C_Brightness ∧
  Factory.device_class ["color_temp"] = C_CT ∧
  Factory.device_class ["xy"] = C_RGB ∧
  Factory.device_class ["color_temp"; "xy"] = C_RGBW.
Proof.
  split; [|by repeat split].
  intros modes. split; [apply selects_device_class|].
  intros c. split.
  - intros Hc. eapply selects_functional; [done|apply selects_device_class].
  - intros ->. apply selects_device_class.
Qed.

(** ** Handle allocation *)

Section HandleAllocation.
Import OnOffDevice.

Lemma foldr_max_upper (k : Z) (ks : list Z) :
  k <= foldr Z.max k ks ∧ ∀ x, x ∈ ks -> x <= foldr Z.max k ks.
Proof.
  induction ks as [|a ks [IHk IHx]]; simpl.
  - split; [lia|]. intros x Hx. by apply elem_of_nil in Hx.
  - split; [lia|]. intros x Hx. apply elem_of_cons in Hx as [->|Hx].
    + lia.
    + specialize (IHx x Hx). lia.
Qed.

Lemma foldr_max_member (k : Z) (ks : list Z) :
  foldr Z.max k ks ∈ k :: ks.
Proof.
  induction ks as [|a ks IH]; simpl.
  - apply list_elem_of_here.
  - destruct (Z.max_spec a (foldr Z.max k ks)) as [[_ ->]|[_ ->]].
    + apply elem_of_cons in IH as [->|IH].
      * apply list_elem_of_here.
      * by do 2 apply list_elem_of_further.
    + apply list_elem_of_further, list_elem_of_here.
Qed.

Lemma keys_dom (m : gmap Z EntityState) (k : Z) :
  k ∈ (map_to_list m).*1 ↔ k ∈ dom m.
Proof.
  rewrite elem_of_dom, list_elem_of_fmap. split.
  - intros ([k' e] & -> & Hin). apply elem_of_map_to_list in Hin. by exists e.
  - intros [e He]. exists (k, e). split; [done|].
    by apply elem_of_map_to_list.
Qed.

Lemma next_control_state_id_empty :
  __next_control_state_id ∅ = 0.
Proof. unfold __next_control_state_id. by rewrite map_to_list_empty. Qed.

Lemma next_control_state_id_max (m : gmap Z EntityState) :
  m ≠ ∅ -> ∃ k, is_max_handle m k ∧ __next_control_state_id m = k + 1.
Proof.
  intros Hne. unfold __next_control_state_id.
  destruct ((map_to_list m).*1) as [|k ks] eqn:Hkeys.
  - apply fmap_nil_inv in Hkeys. by apply map_to_list_empty_iff in Hkeys.
  - exists (foldr Z.max k ks). split; [|done]. split.
    + apply keys_dom. rewrite Hkeys. apply foldr_max_member.
    + intros k' Hk'. apply keys_dom in Hk'. rewrite Hkeys in Hk'.
      destruct (foldr_max_upper k ks) as [Hk Hks].
      apply elem_of_cons in Hk' as [->|Hk']; [done|by apply Hks].
Qed.

Lemma new_control_state_fresh (d : Device) (s : EntityState) :
  _config_state d = Some s ->
  _new_control_state VNone d =
    mkOutcome (Ok (VInt (__next_control_state_id (_control_state d))))
      (with_control_state
         (<[__next_control_state_id (_control_state d) := seeded_entry d s]>
            (_control_state d)) d)
      [].
Proof.
  intros Hs. unfold _new_control_state, config_state_attr, bind, get, modify,
    lift, ret. simpl. rewrite Hs. simpl. reflexivity.
Qed.

End HandleAllocation.

(** C6. A fresh handle is the largest existing handle plus one, or 0 when
    the control-state store is empty: this is what [_new_control_state]
    returns and the key it seeds; an empty store gives 0 and a store with
    the handles 0 and 2 gives 3. *)
Theorem fresh_handle_is_max_plus_one (d : Device) (s : EntityState) :
  _config_state d = Some s ->
  let fresh := OnOffDevice.__next_control_state_id (_control_state d) in
  let o := OnOffDevice._new_control_state VNone d in
  res o = Ok (VInt fresh) ∧
  _control_state (dev o) = <[fresh := seeded_entry d s]> (_control_state d) ∧
  (_control_state d = ∅ -> fresh = 0) ∧
  (_control_state d ≠ ∅ ->
     ∃ k, is_max_handle (_control_state d) k ∧ fresh = k + 1) ∧
  OnOffDevice.__next_control_state_id ∅ = 0 ∧
  (∀ e0 e2 : EntityState,
     OnOffDevice.__next_control_state_id (<[0 := e0]> (<[2 := e2]> ∅)) = 3).
Proof.
  intros Hs fresh o. subst fresh o.
  rewrite (new_control_state_fresh d s Hs). simpl.
  split; [done|]. split; [done|]. split.
  { intros E. rewrite E. apply next_control_state_id_empty. }
  split; [apply next_control_state_id_max|].
  split; [apply next_control_state_id_empty|].
  intros e0 e2. reflexivity.
Qed.

(** ** The reconciler *)

Section Reconciler.
Import OnOffDevice.

(** The dict built by the loop over [ALL_STATES] holds, under the name of
    each field, the value computed for that field. *)
Lemma save_state_lookup (g : field -> value) (f : field) :
  foldl (fun acc state => <[field_name state := g state]> acc)
    (∅ : gmap string value) ALL_STATES !! field_name f = Some (g f).
Proof. destruct f; reflexivity. Qed.

Lemma save_state_get (g : field -> value) (f : field) :
  dict_get
    (foldl (fun acc state => <[field_name state := g state]> acc)
       (∅ : gmap string value) ALL_STATES) (field_name f) = g f.
Proof. unfold dict_get. by rewrite save_state_lookup. Qed.

Lemma getattr_of_dict (save : gmap string value) (f : field) :
  getattr (EntityState_of_dict save) f = dict_get save (field_name f).
Proof. destruct f; reflexivity. Qed.

Lemma is_defined_false (v : value) : is_defined v = false ↔ v = VNone.
Proof. destruct v; simpl; split; congruence. Qed.

Lemma is_defined_true (v : value) : is_defined v = true ↔ v ≠ VNone.
Proof. destruct v; simpl; split; congruence. Qed.

Lemma best_value_reconciled (control_state hass_state : option EntityState)
    (saved : gmap string value) (f : field) :
  reconciled (field_of control_state f) (field_of hass_state f)
    (dict_get saved (field_name f))
    (best_value control_state hass_state saved f).
Proof.
  unfold best_value.
  destruct control_state as [cs|], hass_state as [hs|]; simpl;
    repeat match goal with
    | |- context [is_defined ?v] =>
        let E := fresh "E" in
        destruct (is_defined v) eqn:E;
        [apply is_defined_true in E | apply is_defined_false in E]
    end;
    first [ by apply reconciled_control
          | by apply reconciled_backend
          | by apply reconciled_persisted ].
Qed.

Lemma update_config_states_outcome (env : Env)
    (control_state : option EntityState) (d : Device) :
  let save :=
    foldl (fun acc state =>
             <[field_name state :=
                 best_value control_state (_hass_state d)
                   (default ∅ (cfg_state (_config d))) state]> acc)
          (∅ : gmap string value) ALL_STATES in
  let d' := with_config_state (EntityState_of_dict save)
              (with_saved_state save d) in
  _async_update_config_states env control_state d =
    mkOutcome (if env_store_ok env then Ok tt else Raise StoreError) d'
      [SaveConfig (_light_id d) (_config d')].
Proof.
  unfold _async_update_config_states, _async_save_config, bind, get, modify,
    emit, ret, raise. simpl.
  destruct (env_store_ok env); reflexivity.
Qed.

End Reconciler.

(** C1. For every device, field, control state, backend state and previously
    saved state, the reconciler leaves a persisted record whose field is the
    control value if defined, else the backend value if defined, else the
    previously saved value (unset when there is none); the in-memory
    persisted state is exactly the record of the saved dict, and nothing
    else of the device changes. *)
Theorem reconciler_field_precedence (env : Env)
    (control_state : option EntityState) (d : Device) (f : field) :
  let o := OnOffDevice._async_update_config_states env control_state d in
  ∃ (r : EntityState) (save : gmap string value),
    _config_state (dev o) = Some r ∧
    cfg_state (_config (dev o)) = Some save ∧
    r = EntityState_of_dict save ∧
    save !! field_name f = Some (getattr r f) ∧
    reconciled (field_of control_state f) (field_of (_hass_state d) f)
      (dict_get (default ∅ (cfg_state (_config d))) (field_name f))
      (getattr r f) ∧
    _control_state (dev o) = _control_state d ∧
    _hass_state (dev o) = _hass_state d ∧
    _last_update (dev o) = _last_update d ∧
    res o = (if env_store_ok env then Ok tt else Raise StoreError).
Proof.
  intros o. subst o. rewrite update_config_states_outcome.
  cbn [dev res with_config_state with_saved_state _config_state _config
       cfg_state _control_state _hass_state _last_update].
  eexists _, _. split; [reflexivity|]. split; [reflexivity|].
  split; [reflexivity|].
  rewrite getattr_of_dict, save_state_get, save_state_lookup.
  split; [reflexivity|]. split; [apply best_value_reconciled|].
  by repeat split.
Qed.

(** ** The throttle gate and the commit protocol *)

Section Commit.
Import OnOffDevice.

Lemma with_control_state_id (d : Device) :
  with_control_state (_control_state d) d = d.
Proof. by destruct d. Qed.

(** The gate, case by case. *)
Lemma update_allowed_disabled (env : Env) (cs : EntityState) (d : Device) :
  _throttle_ms d = None ∨ _throttle_ms d = Some 0 ->
  _async_update_allowed env cs d = mkOutcome (Ok true) d [].
Proof.
  unfold _async_update_allowed, bind, get, ret. simpl.
  by intros [-> | ->].
Qed.



Lemma update_allowed_pass (env : Env) (cs : EntityState) (d : Device)
    (t : Z) :
  _throttle_ms d = Some t -> t ≠ 0 ->
  config_state_equals d cs = false ->
  (inject_Z t / 1000 <= env_now env - _last_update d)%Q ->
  _async_update_allowed env cs d =
    mkOutcome (Ok true) (with_last_update (env_now env) d) [].
Proof.
  unfold _async_update_allowed, bind, get, ret, modify. simpl.
  intros -> Ht -> Hle. apply Z.eqb_neq in Ht as ->.
  unfold Qltb. apply Qle_bool_iff in Hle. by rewrite Hle.
Qed.

(** The gate does not look at the control-state store. *)
Lemma update_allowed_store (env : Env) (cs : EntityState) (d : Device)
    (m : gmap Z EntityState) :
  _async_update_allowed env cs (with_control_state m d) =
    let o := _async_update_allowed env cs d in
    mkOutcome (res o) (with_control_state m (dev o)) (trace o).
Proof.
  unfold _async_update_allowed, bind, get, ret, modify, config_state_equals.
  simpl. destruct (_throttle_ms d) as [t|]; [|done].
  destruct (t =? 0); [done|].
  destruct (_config_state d) as [s|]; simpl.
  - destruct (state_eqb s cs); [done|].
    by destruct (Qltb _ _).
  - by destruct (Qltb _ _).
Qed.

Lemma update_allowed_keeps_store (env : Env) (cs : EntityState)
    (d : Device) :
  _control_state (dev (_async_update_allowed env cs d)) = _control_state d.
Proof.
  unfold _async_update_allowed, bind, get, ret, modify. simpl.
  destruct (_throttle_ms d) as [t|]; [|done].
  destruct (t =? 0); [done|].
  destruct (config_state_equals d cs); [done|].
  by destruct (Qltb _ _).
Qed.

Lemma update_allowed_no_raise (env : Env) (cs : EntityState) (d : Device) :
  ∃ b, res (_async_update_allowed env cs d) = Ok b.
Proof.
  unfold _async_update_allowed, bind, get, ret, modify. simpl.
  destruct (_throttle_ms d) as [t|]; [|by eexists].
  destruct (t =? 0); [by eexists|].
  destruct (config_state_equals d cs); [by eexists|].
  destruct (Qltb _ _); by eexists.
Qed.

Lemma update_allowed_veto_outcome (env : Env) (cs : EntityState)
    (d : Device) :
  res (_async_update_allowed env cs d) = Ok false ->
  _async_update_allowed env cs d = mkOutcome (Ok false) d [].
Proof.
  unfold _async_update_allowed. rewrite bind_get.
  destruct (_throttle_ms d) as [t|]; [|done].
  destruct (t =? 0); [done|].
  destruct (config_state_equals d cs); [done|].
  destruct (Qltb _ _); [done|]. by rewrite bind_modify.
Qed.

Lemma execute_absent (env : Env) (h : Z) (d : Device) :
  _control_state d !! h = None ->
  async_execute env h d = mkOutcome (Ok tt) d [no_state_warning].
Proof.
  intros Hh. unfold async_execute. rewrite bind_get, bind_modify, Hh.
  by rewrite (delete_id _ _ Hh), with_control_state_id.
Qed.

Lemma execute_vetoed (env : Env) (h : Z) (d : Device) (cs : EntityState) :
  _control_state d !! h = Some cs ->
  res (_async_update_allowed env cs d) = Ok false ->
  async_execute env h d =
    mkOutcome (Ok tt)
      (with_control_state (delete h (_control_state d)) d) [].
Proof.
  intros Hh Hveto. unfold async_execute. rewrite bind_get, bind_modify, Hh.
  set (d1 := with_control_state (delete h (_control_state d)) d).
  assert (_async_update_allowed env cs d1 = mkOutcome (Ok false) d1 [])
    as Hgate.
  { subst d1. rewrite update_allowed_store.
    by rewrite (update_allowed_veto_outcome env cs d Hveto). }
  by rewrite (bind_outcome_ok _ _ _ _ _ _ Hgate).
Qed.

Lemma dispatch_keeps_device (env : Env) (eid : string) (d : Device)
    (cs : EntityState) :
  dev ((if truthy (power_state cs)
        then async_turn_on env eid (to_hass_data cs)
        else async_turn_off env eid (to_hass_data cs)) d) = d.
Proof.
  destruct (truthy (power_state cs));
    unfold async_turn_on, async_turn_off; rewrite bind_emit;
    by destruct (env_hass_ok env).
Qed.

Lemma execute_pops (env : Env) (h : Z) (d : Device) :
  _control_state (dev (async_execute env h d)) = delete h (_control_state d).
Proof.
  unfold async_execute. rewrite bind_get, bind_modify.
  destruct (_control_state d !! h) as [cs|]; [|done].
  set (d1 := with_control_state (delete h (_control_state d)) d).
  pose proof (update_allowed_keeps_store env cs d1) as Hkeep.
  destruct (update_allowed_no_raise env cs d1) as [b Hb].
  destruct (_async_update_allowed env cs d1) as [r d2 tr] eqn:Hgate.
  simpl in Hkeep, Hb. subst r.
  rewrite (bind_outcome_ok _ _ _ _ _ _ Hgate).
  cbn [dev]. destruct b; [|done]. cbn [negb].
  set (send := if truthy (power_state cs) then _ else _).
  pose proof (dispatch_keeps_device env (_entity_id d) d2 cs) as Hsend.
  fold send in Hsend.
  destruct (send d2) as [[[]|e] d3 tr3] eqn:Hd3; simpl in Hsend; subst d3.
  - rewrite (bind_outcome_ok _ _ _ _ _ _ Hd3).
    by rewrite update_config_states_outcome.
  - by rewrite (bind_outcome_raise _ _ _ _ _ _ Hd3).
Qed.

Lemma update_allowed_keeps_persisted (env : Env) (cs : EntityState)
    (d : Device) :
  _config_state (dev (_async_update_allowed env cs d)) = _config_state d ∧
  _config (dev (_async_update_allowed env cs d)) = _config d.
Proof.
  unfold _async_update_allowed. rewrite bind_get.
  destruct (_throttle_ms d) as [t|]; [|done].
  destruct (t =? 0); [done|].
  destruct (config_state_equals d cs); [done|].
  destruct (Qltb _ _); [done|]. by rewrite bind_modify.
Qed.

Lemma execute_refused (env : Env) (h : Z) (d : Device) (cs : EntityState) :
  _control_state d !! h = Some cs ->
  res (_async_update_allowed env cs d) = Ok true ->
  env_hass_ok env = false ->
  res (async_execute env h d) = Raise BackendError ∧
  _config_state (dev (async_execute env h d)) = _config_state d ∧
  _config (dev (async_execute env h d)) = _config d.
Proof.
  intros Hh Hallow Hhass. unfold async_execute.
  rewrite bind_get, bind_modify, Hh.
  set (d1 := with_control_state (delete h (_control_state d)) d).
  pose proof (update_allowed_keeps_persisted env cs d1) as [Hcs Hcfg].
  pose proof (update_allowed_store env cs d (delete h (_control_state d)))
    as Hstore.
  fold d1 in Hstore. cbn zeta in Hstore. rewrite Hallow in Hstore.
  destruct (_async_update_allowed env cs d1) as [r d2 tr] eqn:Hgate.
  injection Hstore as -> _ _. simpl in Hcs, Hcfg.
  rewrite (bind_outcome_ok _ _ _ _ _ _ Hgate). cbn [negb dev res].
  assert (∀ send : M unit,
            (∃ ev, send = (let* _ := emit ev in
                           if env_hass_ok env then ret tt
                           else raise BackendError)%dev) ->
            send d2 = mkOutcome (Raise BackendError) d2 (trace (send d2)))
    as Hrefuse.
  { intros send [ev ->]. rewrite bind_emit, Hhass. reflexivity. }
  set (send := if truthy (power_state cs) then _ else _).
  assert (send d2 = mkOutcome (Raise BackendError) d2 (trace (send d2)))
    as Hsend.
  { apply Hrefuse. subst send. destruct (truthy (power_state cs));
      eexists; reflexivity. }
  rewrite (bind_outcome_raise _ _ _ _ _ _ Hsend). simpl.
  by rewrite Hcs, Hcfg.
Qed.

End Commit.

(** C3. Committing a handle with no pending entry logs a warning and changes
    nothing; a commit the throttle gate vetoes only removes the entry, with
    no dispatch and the persisted state as before; a dispatch the backend
    refuses raises and leaves the persisted state as before; whatever
    happens the entry is gone afterwards and nothing else has left the
    store, so a second commit of the handle is the no-op with the
    warning. *)
Theorem commit_pops_at_most_once (env env2 : Env) (h : Z) (d : Device) :
  let o := OnOffDevice.async_execute env h d in
  (_control_state d !! h = None ->
     o = mkOutcome (Ok tt) d [no_state_warning]) ∧
  (∀ cs, _control_state d !! h = Some cs ->
     res (OnOffDevice._async_update_allowed env cs d) = Ok false ->
     o = mkOutcome (Ok tt)
           (with_control_state (delete h (_control_state d)) d) [] ∧
     _config_state (dev o) = _config_state d ∧
     _config (dev o) = _config d ∧
     existsb is_dispatch (trace o) = false) ∧
  (∀ cs, _control_state d !! h = Some cs ->
     res (OnOffDevice._async_update_allowed env cs d) = Ok true ->
     env_hass_ok env = false ->
     res o = Raise BackendError ∧
     _config_state (dev o) = _config_state d ∧
     _config (dev o) = _config d) ∧
  _control_state (dev o) = delete h (_control_state d) ∧
  _control_state (dev o) !! h = None ∧
  OnOffDevice.async_execute env2 h (dev o) =
    mkOutcome (Ok tt) (dev o) [no_state_warning].
Proof.
  intros o. subst o. split; [apply execute_absent|]. split.
  { intros cs Hh Hveto. rewrite (execute_vetoed env h d cs Hh Hveto).
    by repeat split. }
  split; [apply execute_refused|].
  assert (_control_state (dev (OnOffDevice.async_execute env h d)) !! h = None)
    as Hgone.
  { rewrite execute_pops. apply lookup_delete_eq. }
  split; [apply execute_pops|]. split; [done|].
  by apply execute_absent.
Qed.

(** ** The decorator and the brightness write *)

Section Writes.
Import OnOffDevice.

Lemma config_state_attr_some (f : field) (d : Device) (s : EntityState) :
  _config_state d = Some s ->
  config_state_attr f d = mkOutcome (Ok (getattr s f)) d [].
Proof. intros Hs. unfold config_state_attr. by rewrite bind_get, Hs. Qed.

Lemma config_state_attr_none (f : field) (d : Device) :
  _config_state d = None ->
  config_state_attr f d = mkOutcome (Raise AttributeError) d [].
Proof. intros Hs. unfold config_state_attr. by rewrite bind_get, Hs. Qed.

Lemma new_control_state_outcome (control_id : value) (d : Device) :
  (_config_state d = None ∧
   _new_control_state control_id d = mkOutcome (Raise AttributeError) d [])
  ∨ (∃ s, _config_state d = Some s ∧
      ((∃ e, _new_control_state control_id d = mkOutcome (Raise e) d []) ∨
       (∃ key,
          handle_key (if truthy control_id then control_id
                      else VInt (__next_control_state_id (_control_state d)))
            = Ok key ∧
          _new_control_state control_id d =
            mkOutcome (Ok (VInt key))
              (with_control_state
                 (<[key := seeded_entry d s]> (_control_state d)) d) []))).
Proof.
  unfold _new_control_state. rewrite bind_get.
  destruct (_config_state d) as [s|] eqn:Hs.
  - right. exists s. split; [done|].
    rewrite (bind_silent_ok _ _ _ _ _ (config_state_attr_some _ d s Hs)).
    destruct (handle_key _) as [key|e] eqn:Hkey.
    + right. exists key. split; [done|].
      rewrite bind_lift_ok, bind_modify.
      destruct (truthy control_id); [|by injection Hkey as <-].
      destruct control_id; try discriminate. by injection Hkey as <-.
    + left. exists e. by rewrite bind_lift_raise.
  - left. split; [done|].
    by rewrite (bind_outcome_raise _ _ _ _ _ _ (config_state_attr_none _ d Hs)).
Qed.

Lemma control_state_get_int (z : Z) (d : Device) :
  control_state_get (VInt z) d = mkOutcome (Ok (_control_state d !! z)) d [].
Proof. reflexivity. Qed.

Lemma control_state_get_bad (control_id : value) (d : Device) :
  control_id ≠ VNone -> (∀ z, control_id ≠ VInt z) ->
  control_state_get control_id d = mkOutcome (Raise TypeError) d [].
Proof.
  intros Hnone Hint. unfold control_state_get. rewrite bind_get.
  destruct control_id; try done; by destruct (Hint z).
Qed.

(** The decorator either raises before the method body runs, leaving the
    device as it was, or runs the body on an [int] handle and the entry the
    handle names, after at most one seeded insertion. *)
Lemma ensure_outcome (func : value -> value -> option EntityState -> M value)
    (args : list value) (kwargs : gmap string value) (d : Device) :
  (∃ e tr, ensure_control_state func args kwargs d = mkOutcome (Raise e) d tr)
  ∨ (∃ a1 key d1 tr,
       args !! 0%nat = Some a1 ∧ ensured d d1 ∧
       ensure_control_state func args kwargs d =
         let o1 := func (py_or a1 (dict_get kwargs "setting")) (VInt key)
                     (_control_state d1 !! key) d1 in
         mkOutcome (res o1) (dev o1) (tr ++ trace o1)).
Proof.
  unfold ensure_control_state.
  destruct args as [|a1 [|a2 rest]]; simpl py_index.
  { left. exists IndexError, []. by rewrite bind_lift_raise. }
  { left. exists IndexError, []. by rewrite bind_lift_ok, bind_lift_raise. }
  rewrite !bind_lift_ok.
  set (setting := py_or a1 (dict_get kwargs "setting")).
  destruct (py_or a2 (dict_get kwargs "control_id")) as [|b|z|q|str|l] eqn:Hid.
  - destruct (new_control_state_outcome VNone d)
      as [[_ Hnew]|(s & Hs & [[e Hnew]|(key & _ & Hnew)])].
    + left. exists AttributeError, [].
      by rewrite (bind_outcome_raise _ _ _ _ _ _ Hnew).
    + left. exists e, []. by rewrite (bind_outcome_raise _ _ _ _ _ _ Hnew).
    + right. eexists a1, key, _, []. split; [done|]. split.
      { right. by exists key, s. }
      rewrite (bind_silent_ok _ _ _ _ _ Hnew).
      rewrite (bind_silent_ok _ _ _ _ _ (control_state_get_int key _)).
      cbv zeta. cbn [app]. symmetry. apply outcome_eta.
  - left. exists TypeError, [].
    by erewrite bind_outcome_raise;
      [|erewrite bind_outcome_raise; [|by apply control_state_get_bad]].
  - rewrite bind_assoc.
    rewrite (bind_silent_ok _ _ _ _ _ (control_state_get_int z d)).
    destruct (_control_state d !! z) as [entry|] eqn:Hz.
    + right. exists a1, z, d, []. split; [done|]. split; [by left|].
      rewrite bind_ret.
      rewrite (bind_silent_ok _ _ _ _ _ (control_state_get_int z d)).
      cbv zeta. cbn [app]. symmetry. apply outcome_eta.
    + rewrite bind_assoc, bind_emit, bind_assoc.
      destruct (new_control_state_outcome (VInt z) d)
        as [[_ Hnew]|(s & Hs & [[e Hnew]|(key & _ & Hnew)])].
      * left. exists AttributeError, [stale_warning].
        by rewrite (bind_outcome_raise _ _ _ _ _ _ Hnew).
      * left. exists e, [stale_warning].
        by rewrite (bind_outcome_raise _ _ _ _ _ _ Hnew).
      * right. eexists a1, z, _, [stale_warning]. split; [done|]. split.
        { right. by exists key, s. }
        rewrite (bind_silent_ok _ _ _ _ _ Hnew), bind_ret.
        by rewrite (bind_silent_ok _ _ _ _ _ (control_state_get_int z _)).
  - left. exists TypeError, [].
    by erewrite bind_outcome_raise;
      [|erewrite bind_outcome_raise; [|by apply control_state_get_bad]].
  - left. exists TypeError, [].
    by erewrite bind_outcome_raise;
      [|erewrite bind_outcome_raise; [|by apply control_state_get_bad]].
  - left. exists TypeError, [].
    by erewrite bind_outcome_raise;
      [|erewrite bind_outcome_raise; [|by apply control_state_get_bad]].
Qed.

Lemma Qtrunc_range (q : Q) :
  (inject_Z 1 <= q)%Q -> (q <= inject_Z 255)%Q -> 1 <= Qtrunc q <= 255.
Proof.
  destruct q as [n p]. unfold Qle, Qtrunc. simpl. intros Hlo Hhi.
  assert (0 <= n) by lia.
  rewrite Z.quot_div_nonneg by lia. split.
  - apply Z.div_le_lower_bound; lia.
  - apply Z.div_le_upper_bound; lia.
Qed.

Lemma clamp_range (v : value) (q : Q) :
  clamp v 1 255 = Ok q -> 1 <= Qtrunc q <= 255.
Proof.
  unfold clamp. destruct (num_of v) as [x|]; [|done].
  intros [= <-].
  destruct (Qle_bool x (inject_Z 255)) eqn:Hhi.
  - destruct (Qle_bool (inject_Z 1) x) eqn:Hlo.
    + apply Qtrunc_range; by apply Qle_bool_iff.
    + done.
  - done.
Qed.

Lemma assign_some (control_id : Z) (entry : EntityState) (f : field)
    (v : value) (d : Device) :
  assign (VInt control_id) (Some entry) f v d =
    mkOutcome (Ok tt)
      (with_control_state (alter (setattr f v) control_id (_control_state d)) d)
      [].
Proof. reflexivity. Qed.

Lemma assign_none (control_id : value) (f : field) (v : value) (d : Device) :
  assign control_id None f v d = mkOutcome (Raise AttributeError) d [].
Proof. reflexivity. Qed.

Lemma set_brightness_body_outcome (setting : value) (key : Z) (d : Device) :
  let o := BrightnessDevice.set_brightness_body setting (VInt key)
             (_control_state d !! key) d in
  (∃ e, o = mkOutcome (Raise e) d [])
  ∨ (∃ q entry,
       clamp setting 1 255 = Ok q ∧ _control_state d !! key = Some entry ∧
       o = mkOutcome (Ok (VInt key))
             (with_control_state
                (alter (setattr F_brightness (VInt (Qtrunc q))) key
                   (_control_state d)) d) []).
Proof.
  unfold BrightnessDevice.set_brightness_body.
  destruct (clamp setting 1 255) as [q|e] eqn:Hclamp.
  - rewrite bind_lift_ok.
    destruct (_control_state d !! key) as [entry|] eqn:Hentry.
    + right. exists q, entry. split; [done|]. split; [done|].
      by rewrite (bind_silent_ok _ _ _ _ _ (assign_some _ _ _ _ _)).
    + left. exists AttributeError.
      by rewrite (bind_outcome_raise _ _ _ _ _ _ (assign_none _ _ _ _)).
  - left. exists e. by rewrite bind_lift_raise.
Qed.

Lemma ensured_store (d d1 : Device) (k : Z) (e1 : EntityState) :
  ensured d d1 ->
  _control_state d1 !! k = Some e1 ->
  brightness e1 = VNone ∨ _control_state d !! k = Some e1.
Proof.
  intros [->|(k' & s & Hs & ->)] Hk; [by right|].
  simpl in Hk. destruct (decide (k' = k)) as [->|Hne].
  - rewrite lookup_insert_eq in Hk. injection Hk as <-. by left.
  - rewrite lookup_insert_ne in Hk by done. by right.
Qed.

End Writes.

(** C10. Whenever [set_brightness] returns, the entry of the returned handle
    holds a brightness between 1 and 255; and whether it returns or raises,
    every entry of the store afterwards has a brightness in that range, or
    none (a freshly seeded entry), or the one the same entry had before.
    A brightness of 0 is never staged by it. *)
Theorem set_brightness_stores_1_to_255 (args : list value)
    (kwargs : gmap string value) (d : Device) :
  let o := BrightnessDevice.set_brightness args kwargs d in
  (∀ control_id, res o = Ok control_id ->
     ∃ key entry, control_id = VInt key ∧
       _control_state (dev o) !! key = Some entry ∧
       brightness_in_range (brightness entry)) ∧
  (∀ k entry', _control_state (dev o) !! k = Some entry' ->
     brightness_in_range (brightness entry') ∨
     brightness entry' = VNone ∨
     ∃ entry, _control_state d !! k = Some entry ∧
              brightness entry' = brightness entry).
Proof.
  intros o. subst o. unfold BrightnessDevice.set_brightness.
  destruct (ensure_outcome BrightnessDevice.set_brightness_body args kwargs d)
    as [(e & tr & ->)|(a1 & key & d1 & tr & _ & Hens & ->)].
  { simpl. split; [done|]. intros k entry' Hk. right. right. by exists entry'. }
  cbv zeta.
  destruct (set_brightness_body_outcome (py_or a1 (dict_get kwargs "setting"))
              key d1) as [[e ->]|(q & entry & Hclamp & Hentry & ->)];
    cbn [res dev trace with_control_state _control_state].
  { split; [done|]. intros k entry' Hk.
    destruct (ensured_store d d1 k entry' Hens Hk) as [?|?]; [by auto|].
    right. right. by exists entry'. }
  pose proof (clamp_range _ _ Hclamp) as Hrange.
  split.
  - intros control_id [= <-]. eexists key, _. split; [done|].
    rewrite lookup_alter_eq, Hentry. split; [done|].
    by exists (Qtrunc q).
  - intros k entry' Hk. destruct (decide (key = k)) as [->|Hne].
    + rewrite lookup_alter_eq, Hentry in Hk. injection Hk as <-.
      left. by exists (Qtrunc q).
    + rewrite lookup_alter_ne in Hk by done.
      destruct (ensured_store d d1 k entry' Hens Hk) as [?|?]; [by auto|].
      right. right. by exists entry'.
Qed.

(** ** Falsy arguments of the decorated writes *)

Section FalsyArguments.
Import OnOffDevice.

(** [args[2] or kwargs.get('control_id')]: a handle 0 is read as no handle. *)
Lemma ensure_handle_zero_is_none
    (func : value -> value -> option EntityState -> M value)
    (setting : value) (d : Device) :
  ensure_control_state func [setting; VInt 0] ∅ d =
  ensure_control_state func [setting; VNone] ∅ d.
Proof. reflexivity. Qed.

(** [args[1] or kwargs.get('setting')]: a falsy setting reaches the method
    body as [None]. *)
Lemma ensure_falsy_setting_is_none
    (func : value -> value -> option EntityState -> M value)
    (setting control_id : value) (d : Device) :
  truthy setting = false ->
  ensure_control_state func [setting; control_id] ∅ d =
  ensure_control_state func [VNone; control_id] ∅ d.
Proof.
  intros Hfalsy. unfold ensure_control_state. simpl py_index.
  rewrite !bind_lift_ok. unfold py_or. by rewrite Hfalsy.
Qed.

(** On a known non-zero handle the decorator runs the body on the entry. *)
Lemma ensure_known_handle
    (func : value -> value -> option EntityState -> M value)
    (setting : value) (h : Z) (entry : EntityState) (d : Device) :
  truthy setting = true -> h ≠ 0 ->
  _control_state d !! h = Some entry ->
  ensure_control_state func [setting; VInt h] ∅ d =
    func setting (VInt h) (Some entry) d.
Proof.
  intros Hsetting Hh Hentry. unfold ensure_control_state. simpl py_index.
  rewrite !bind_lift_ok. unfold py_or. rewrite Hsetting. simpl truthy.
  apply Z.eqb_neq in Hh. rewrite Hh. simpl negb. cbv iota.
  rewrite bind_assoc.
  rewrite (bind_silent_ok _ _ _ _ _ (control_state_get_int h d)), Hentry.
  rewrite bind_ret.
  by rewrite (bind_silent_ok _ _ _ _ _ (control_state_get_int h d)), Hentry.
Qed.

(** Staging power-on on a known handle sets the field. *)
Lemma set_power_state_true (h : Z) (entry : EntityState) (d : Device) :
  h ≠ 0 -> _control_state d !! h = Some entry ->
  set_power_state [VBool true; VInt h] ∅ d =
    mkOutcome (Ok (VInt h))
      (with_control_state
         (<[h := setattr F_power_state (VBool true) entry]>
            (_control_state d)) d) [].
Proof.
  intros Hh Hentry. unfold set_power_state.
  rewrite (ensure_known_handle _ (VBool true) h entry d eq_refl Hh Hentry).
  unfold set_power_state_body.
  rewrite (bind_silent_ok _ _ _ _ _ (assign_some _ _ _ _ _)).
  unfold ret. do 2 f_equal. apply map_eq. intros k.
  destruct (decide (h = k)) as [->|Hne].
  - by rewrite lookup_alter_eq, lookup_insert_eq, Hentry.
  - by rewrite lookup_alter_ne, lookup_insert_ne.
Qed.

(** Staging power-off on a known handle leaves the field unset. *)
Lemma set_power_state_false (h : Z) (entry : EntityState) (d : Device) :
  h ≠ 0 -> _control_state d !! h = Some entry ->
  set_power_state [VBool false; VInt h] ∅ d =
    mkOutcome (Ok (VInt h))
      (with_control_state
         (<[h := setattr F_power_state VNone entry]> (_control_state d)) d) [].
Proof.
  intros Hh Hentry. unfold set_power_state, ensure_control_state.
  simpl py_index. rewrite !bind_lift_ok. unfold py_or. simpl truthy.
  apply Z.eqb_neq in Hh. rewrite Hh. simpl negb. cbv iota.
  rewrite bind_assoc.
  rewrite (bind_silent_ok _ _ _ _ _ (control_state_get_int h d)), Hentry.
  rewrite bind_ret.
  rewrite (bind_silent_ok _ _ _ _ _ (control_state_get_int h d)), Hentry.
  unfold set_power_state_body.
  rewrite (bind_silent_ok _ _ _ _ _ (assign_some _ _ _ _ _)).
  unfold ret. do 2 f_equal. apply map_eq. intros k.
  destruct (decide (h = k)) as [->|Hne].
  - by rewrite lookup_alter_eq, lookup_insert_eq, Hentry.
  - by rewrite lookup_alter_ne, lookup_insert_ne.
Qed.

(** [set_xy] raises on every input and changes nothing. *)
Lemma set_xy_always_raises (x_y control_id : value) (d : Device) :
  ∃ e, RGBDevice.set_xy x_y control_id d = mkOutcome (Raise e) d [].
Proof.
  unfold RGBDevice.set_xy. cbv zeta.
  destruct (py_unpack2 x_y) as [[x y]|e] eqn:Hxy;
    [rewrite bind_lift_ok|by exists e].
  cbn [fst snd].
  destruct (py_float x) as [fx|e]; [rewrite bind_lift_ok|by exists e].
  destruct (py_float y) as [fy|e]; [rewrite bind_lift_ok|by exists e].
  by exists AttributeError.
Qed.

(** The constructor raises whenever the throttle is not configured. *)
Lemma init_throttle_unset (c : class) (default_seconds : Q)
    (light_id entity_id : string) (config : Config) (now : Q) :
  cfg_throttle config = None ->
  __init__ c default_seconds light_id entity_id config now = Raise TypeError.
Proof. intros Hnone. unfold __init__. by rewrite Hnone. Qed.

Lemma Qltb_inject_Z (a b : Z) :
  Qltb (inject_Z a) (inject_Z b) = bool_decide (a < b).
Proof.
  unfold Qltb. destruct (Qle_bool (inject_Z b) (inject_Z a)) eqn:E; simpl.
  - apply Qle_bool_iff in E. rewrite <- Zle_Qle in E.
    symmetry. apply bool_decide_eq_false. lia.
  - symmetry. apply bool_decide_eq_true.
    destruct (decide (a < b)) as [|Hge]; [done|].
    assert (Qle_bool (inject_Z b) (inject_Z a) = true); [|congruence].
    apply Qle_bool_iff. rewrite <- Zle_Qle. lia.
Qed.

(** A non-zero duration on a known handle of a throttled device is stored
    clamped up to the throttle, in seconds. *)
Lemma set_transition_ms_clamps (ms t h : Z) (entry : EntityState)
    (d : Device) :
  ms ≠ 0 -> h ≠ 0 -> _throttle_ms d = Some t ->
  _control_state d !! h = Some entry ->
  set_transition_ms [VInt ms; VInt h] ∅ d =
    mkOutcome (Ok (VInt h))
      (with_control_state
         (alter (setattr F_transition_seconds
                   (VFloat (Qred (inject_Z (Z.max ms t) / 1000))))
            h (_control_state d)) d) [].
Proof.
  intros Hms Hh Ht Hentry. unfold set_transition_ms.
  rewrite (ensure_known_handle _ _ h entry d); [|simpl|done|done].
  2: { apply Z.eqb_neq in Hms. by rewrite Hms. }
  unfold set_transition_ms_body. rewrite bind_get, Ht.
  cbn [opt_int py_lt num_of]. rewrite bind_lift_ok, Qltb_inject_Z.
  case_bool_decide as Hlt; cbn [py_div1000 num_of];
    rewrite bind_lift_ok, (bind_silent_ok _ _ _ _ _ (assign_some _ _ _ _ _));
    unfold ret; repeat f_equal; lia.
Qed.

End FalsyArguments.

(** ** Where the code departs from the specification *)

(** C2. The writes do not behave as claimed on two inputs.  On an RGB device
    whose store holds handle 0, [set_effect] called with handle 0 does not
    reuse that entry: it allocates handle 1, writes the effect there and
    leaves entry 0 as it was.  On the same device [set_xy], the one write
    without the decorator, raises [AttributeError] and stages nothing. *)
Theorem writes_miss_handle_zero_and_set_xy :
  let d := Sample.device C_RGB (Some 0) {[0 := Sample.seed]} in
  let o := RGBDevice.set_effect [VStr "colorloop"; VInt 0] ∅ d in
  res o = Ok (VInt 1) ∧
  _control_state (dev o) !! 0 = Some Sample.seed ∧
  _control_state (dev o) !! 1 =
    Some (setattr F_effect (VStr "colorloop") Sample.seed) ∧
  RGBDevice.set_xy (VList [VFloat (3 # 10); VFloat (3 # 10)]) (VInt 0) d =
    mkOutcome (Raise AttributeError) d [].
Proof. by repeat split. Qed.

(** C4. The constructor does not accept an unset throttle: with a
    configuration that has no throttle the comparison of the throttle with
    the default transition time raises [TypeError], so no such device
    exists to dispatch anything. *)
Theorem init_with_throttle_unset_raises :
  OnOffDevice.__init__ C_OnOff (2 # 5) "1" "light.lamp" (Sample.config None) 0
    = Raise TypeError.
Proof. reflexivity. Qed.

(** C5. Staging power-off does not store [False]: after
    [set_power_state(False, 1)] on a known handle 1 the entry's power state
    is unset.  Committing it sends one power-off command, and the reconciler
    then keeps the backend's power state, on, as the persisted one. *)
Theorem power_off_is_staged_as_unset :
  let d := Sample.device C_OnOff (Some 0) {[1 := Sample.seed]} in
  let o := OnOffDevice.set_power_state [VBool false; VInt 1] ∅ d in
  let o2 := OnOffDevice.async_execute (mkEnv 10 true true) 1 (dev o) in
  res o = Ok (VInt 1) ∧
  power_state <$> _control_state (dev o) !! 1 = Some VNone ∧
  (∃ data config,
     trace o2 = [TurnOff "light.lamp" data; SaveConfig "1" config]) ∧
  power_state <$> _config_state (dev o2) = Some (VBool true).
Proof. repeat split. by eexists _, _. Qed.

(** C7. A transition of 0 ms is not clamped up to the throttle: on a device
    throttled at 100 ms, [set_transition_ms(0, 1)] and
    [set_transition_seconds(0, 1)] raise [TypeError] and leave the entry's
    transition time as it was.  With the throttle unset the comparison
    raises as well, for every duration. *)
Theorem transition_zero_or_throttle_unset_raises :
  let d := Sample.device C_OnOff (Some 100) {[1 := Sample.seed]} in
  let d' := Sample.device C_OnOff None {[1 := Sample.seed]} in
  OnOffDevice.set_transition_ms [VInt 0; VInt 1] ∅ d =
    mkOutcome (Raise TypeError) d [] ∧
  OnOffDevice.set_transition_seconds (VInt 0) (VInt 1) d =
    mkOutcome (Raise TypeError) d [] ∧
  OnOffDevice.set_transition_ms [VInt 500; VInt 1] ∅ d' =
    mkOutcome (Raise TypeError) d' [].
Proof. by repeat split. Qed.

(** C9. On an RGBW device in mode color_temp with an empty store,
    [set_flash("short")] does not re-assert the color on the handle of the
    flash: the flash is staged on the returned handle 0, the hue and
    saturation on a new handle 1 and the color temperature on a new
    handle 2. *)
Theorem rgbw_flash_scatters_over_handles :
  let d := Sample.device C_RGBW (Some 0) ∅ in
  let o := RGBWDevice.set_flash (VStr "short") VNone d in
  res o = Ok (VInt 0) ∧
  _control_state (dev o) !! 0 =
    Some (setattr F_flash_state (VStr "short") Sample.seed) ∧
  _control_state (dev o) !! 1 =
    Some (setattr F_color_mode (VStr "hs")
            (setattr F_hue_saturation (VList [VInt 10; VInt 20])
               Sample.seed)) ∧
  _control_state (dev o) !! 2 =
    Some (setattr F_color_mode (VStr "color_temp")
            (setattr F_color_temp (VInt 300) Sample.seed)).
Proof. by repeat split. Qed.

(** On a known non-zero handle the flash of an RGBW device in mode
    color_temp and both colors are staged on that handle. *)
Lemma rgbw_flash_on_known_handle :
  let d := Sample.device C_RGBW (Some 0) {[5 := Sample.seed]} in
  let o := RGBWDevice.set_flash (VStr "short") (VInt 5) d in
  res o = Ok (VInt 5) ∧
  _control_state (dev o) =
    {[5 := mkEntityState (VBool true) VNone (VFloat (2 # 5)) VNone (VInt 300)
             (VStr "color_temp") (VList [VInt 10; VInt 20]) VNone VNone
             (VStr "short") VNone]}.
Proof. by repeat split. Qed.

(** ** Instances *)

Lemma commit_pops_at_most_once_witness :
  let veto_env := mkEnv (1 # 2) true true in
  let refuse_env := mkEnv 10 false true in
  let empty := Sample.device C_OnOff (Some 1000) ∅ in
  let throttled := Sample.device C_OnOff (Some 1000) {[1 := Sample.seed_off]} in
  let open := Sample.device C_OnOff (Some 0) {[1 := Sample.seed_off]} in
  OnOffDevice.async_execute veto_env 1 empty =
    mkOutcome (Ok tt) empty [no_state_warning] ∧
  OnOffDevice.async_execute veto_env 1 throttled =
    mkOutcome (Ok tt) (Sample.device C_OnOff (Some 1000) ∅) [] ∧
  res (OnOffDevice.async_execute refuse_env 1 open) = Raise BackendError.
Proof.
  cbv zeta. split; [|split].
  - exact (proj1 (commit_pops_at_most_once (mkEnv (1 # 2) true true)
                    (mkEnv (1 # 2) true true) 1
                    (Sample.device C_OnOff (Some 1000) ∅)) eq_refl).
  - exact (proj1 (proj1 (proj2 (commit_pops_at_most_once
                    (mkEnv (1 # 2) true true) (mkEnv (1 # 2) true true) 1
                    (Sample.device C_OnOff (Some 1000)
                       {[1 := Sample.seed_off]})))
                   Sample.seed_off eq_refl eq_refl)).
  - exact (proj1 (proj1 (proj2 (proj2 (commit_pops_at_most_once
                    (mkEnv 10 false true) (mkEnv 10 false true) 1
                    (Sample.device C_OnOff (Some 0)
                       {[1 := Sample.seed_off]}))))
                   Sample.seed_off eq_refl eq_refl eq_refl)).
Defined.

Lemma fresh_handle_is_max_plus_one_witness :
  let d := Sample.device C_OnOff (Some 0)
             {[0 := Sample.seed; 2 := Sample.seed]} in
  _config_state d = Some Sample.persisted ∧
  res (OnOffDevice._new_control_state VNone d) = Ok (VInt 3).
Proof.
  cbv zeta. split; [reflexivity|].
  exact (proj1 (fresh_handle_is_max_plus_one
                  (Sample.device C_OnOff (Some 0)
                     {[0 := Sample.seed; 2 := Sample.seed]})
                  Sample.persisted eq_refl)).
Defined.

Lemma set_brightness_stores_1_to_255_witness :
  let d := Sample.device C_Brightness (Some 0) ∅ in
  let o := BrightnessDevice.set_brightness [VInt 300; VNone] ∅ d in
  res o = Ok (VInt 0) ∧
  _control_state (dev o) !! 0 =
    Some (setattr F_brightness (VInt 255) Sample.seed) ∧
  (∃ key entry, VInt 0 = VInt key ∧
     _control_state (dev o) !! key = Some entry ∧
     brightness_in_range (brightness entry)) ∧
  (brightness_in_range (VInt 255) ∨ VInt 255 = VNone ∨
   ∃ entry, (∅ : gmap Z EntityState) !! 0 = Some entry ∧
            VInt 255 = brightness entry).
Proof.
  cbv zeta. split; [reflexivity|]. split; [reflexivity|]. split.
  - exact (proj1 (set_brightness_stores_1_to_255 [VInt 300; VNone] ∅
                    (Sample.device C_Brightness (Some 0) ∅))
             (VInt 0) eq_refl).
  - exact (proj2 (set_brightness_stores_1_to_255 [VInt 300; VNone] ∅
                    (Sample.device C_Brightness (Some 0) ∅))
             0 (setattr F_brightness (VInt 255) Sample.seed) eq_refl).
Defined.

(** * Further properties of the module *)

(** ** Device metadata *)

Section MetadataProperties.
Import Metadata.


Lemma list_loop_passed_over (skipped rest : list value) :
  Forall passed_over skipped ->
  list_loop (skipped ++ rest) = list_loop rest.
Proof.
  induction 1 as [|v skipped Hv _ IH]; [done|].
  simpl. by destruct v.
Qed.

End MetadataProperties.


(** X2. In a list of identifiers the first element that is a list or a
    string decides the unique id, elements of other kinds before it being
    passed over: a list gives its last item, an empty list raises
    [IndexError], a string gives itself; with no such element the unique id
    stays unset. *)
Theorem list_identifiers_first_match (skipped rest : list value) :
  Forall passed_over skipped ->
  (∀ inner item, last inner = Some item ->
     Metadata.find_unique_id
       (Metadata.IdValue (VList (skipped ++ VList inner :: rest))) = Ok item) ∧
  Metadata.find_unique_id
    (Metadata.IdValue (VList (skipped ++ VList [] :: rest))) =
    Raise IndexError ∧
  (∀ s, Metadata.find_unique_id
          (Metadata.IdValue (VList (skipped ++ VStr s :: rest))) =
        Ok (VStr s)) ∧
  Metadata.find_unique_id (Metadata.IdValue (VList skipped)) = Ok VNone.
Proof.
  intros Hskip.
  assert (∀ x l, truthy (VList (skipped ++ x :: l)) = true) as Htruthy.
  { intros x l. simpl. by destruct skipped. }
  repeat split.
  - intros inner item Hlast. unfold Metadata.find_unique_id.
    rewrite Htruthy, (list_loop_passed_over _ _ Hskip). simpl.
    by rewrite Hlast.
  - unfold Metadata.find_unique_id.
    by rewrite Htruthy, (list_loop_passed_over _ _ Hskip).
  - intros s. unfold Metadata.find_unique_id.
    by rewrite Htruthy, (list_loop_passed_over _ _ Hskip).
  - unfold Metadata.find_unique_id. destruct skipped as [|v skipped]; [done|].
    simpl truthy. cbv iota.
    rewrite <- (app_nil_r (v :: skipped)).
    by rewrite (list_loop_passed_over _ _ Hskip).
Qed.

Lemma list_identifiers_first_match_witness :
  Metadata.find_unique_id
    (Metadata.IdValue
       (VList [VInt 7; VList [VStr "hue"; VStr "00:17:88"]; VStr "other"])) =
  Ok (VStr "00:17:88").
Proof.
  assert (Forall passed_over [VInt 7]) as Hskip by (repeat constructor).
  exact (proj1 (list_identifiers_first_match [VInt 7] [VStr "other"] Hskip)
           [VStr "hue"; VStr "00:17:88"] (VStr "00:17:88") eq_refl).
Defined.

(** ** Refreshing *)

Section RefreshProperties.
Import Refresh OnOffDevice.
Variables on unavailable : string.

Lemma update_device_state_full (snap : HassStateDict) (d : Device) :
  _update_device_state on unavailable snap true d =
    mkOutcome (Ok tt)
      (with_hass_state (refreshed_state on unavailable d snap) d) [].
Proof.
  destruct d as [c ? ? ? ? ? ? ? ? ?]. destruct c; vm_compute; reflexivity.
Qed.

Lemma update_device_state_rgbw (snap : HassStateDict) (d : Device)
    (full_update : bool) :
  cls d = C_RGBW ->
  _update_device_state on unavailable snap full_update d =
    _update_device_state on unavailable snap true d.
Proof.
  destruct d as [c ? ? ? ? ? ? ? ? ?]. intros Hc. simpl in Hc. subst c.
  destruct full_update; vm_compute; reflexivity.
Qed.

Lemma update_device_state_partial (snap : HassStateDict) (d : Device)
    (hs : EntityState) :
  cls d ≠ C_RGBW -> _hass_state d = Some hs ->
  _update_device_state on unavailable snap false d =
    mkOutcome (Ok tt)
      (with_hass_state (partly_refreshed_state (cls d) hs snap) d) [].
Proof.
  destruct d as [c ? ? ? ? ? ? h ? ?]. intros Hc Hh. simpl in Hc, Hh.
  subst h. destruct hs.
  destruct c; [vm_compute; reflexivity..|by destruct Hc].
Qed.

Lemma update_device_state_partial_none (snap : HassStateDict) (d : Device) :
  _hass_state d = None ->
  _update_device_state on unavailable snap false d =
    match cls d with
    | C_OnOff => mkOutcome (Ok tt) d []
    | C_RGBW =>
        mkOutcome (Ok tt)
          (with_hass_state (refreshed_state on unavailable d snap) d) []
    | _ => mkOutcome (Raise AttributeError) d []
    end.
Proof.
  destruct d as [c ? ? ? ? ? ? h ? ?]. intros Hh. simpl in Hh. subst h.
  destruct c; vm_compute; reflexivity.
Qed.

Lemma update_device_state_keeps (snap : HassStateDict) (d : Device)
    (full_update : bool) :
  let d' := dev (_update_device_state on unavailable snap full_update d) in
  _control_state d' = _control_state d ∧ _last_update d' = _last_update d ∧
  _config d' = _config d ∧ _config_state d' = _config_state d ∧
  cls d' = cls d ∧ _default_transition d' = _default_transition d.
Proof.
  destruct d as [c ? ? ? ? ? ? h ? ?].
  destruct full_update, c, h as [[]|]; vm_compute; by repeat split.
Qed.

Lemma refreshes_test (d : Device) :
  refreshes d ->
  truthy (cfg_enabled (_config d))
  || match _config_state d with Some _ => false | None => true end = true.
Proof.
  intros [->| ->]; [done|]. by destruct (truthy _).
Qed.

Lemma async_update_state_runs (env : Env) (snap : HassStateDict)
    (full_update : bool) (d : Device) :
  refreshes d ->
  async_update_state on unavailable env snap full_update d =
    bind (_update_device_state on unavailable snap full_update)
      (fun _ => _async_update_config_states env None) d.
Proof.
  intros Hd. unfold async_update_state.
  by rewrite bind_get, (refreshes_test d Hd).
Qed.

Lemma async_update_state_skips (env : Env) (snap : HassStateDict)
    (full_update : bool) (d : Device) :
  ¬ refreshes d ->
  async_update_state on unavailable env snap full_update d =
    mkOutcome (Ok tt) d [].
Proof.
  intros Hd. unfold async_update_state. rewrite bind_get.
  destruct (truthy (cfg_enabled (_config d))) eqn:He.
  { destruct Hd. by left. }
  destruct (_config_state d) eqn:Hs; [done|]. destruct Hd. by right.
Qed.

Lemma full_refresh_outcome (env : Env) (snap : HassStateDict) (d : Device) :
  refreshes d ->
  async_update_state on unavailable env snap true d =
    _async_update_config_states env None
      (with_hass_state (refreshed_state on unavailable d snap) d).
Proof.
  intros Hd. rewrite (async_update_state_runs _ _ _ _ Hd).
  by rewrite (bind_silent_ok _ _ _ _ _ (update_device_state_full snap d)).
Qed.

Lemma getattr_refreshed_state (snap : HassStateDict) (d : Device)
    (f : field) :
  getattr (refreshed_state on unavailable d snap) f =
    refreshed_field on unavailable d snap f.
Proof. by destruct f. Qed.

Lemma save_state_ext (g1 g2 : field -> value) :
  (∀ f, g1 f = g2 f) ->
  foldl (fun acc state => <[field_name state := g1 state]> acc)
    (∅ : gmap string value) ALL_STATES =
  foldl (fun acc state => <[field_name state := g2 state]> acc)
    (∅ : gmap string value) ALL_STATES.
Proof. intros Hg. unfold ALL_STATES. cbn [foldl]. by rewrite !Hg. Qed.

(** Reconciling twice against the same backend state saves the same. *)
Lemma best_value_again (hs : EntityState) (saved : gmap string value)
    (f : field) :
  best_value None (Some hs)
    (foldl (fun acc state =>
              <[field_name state := best_value None (Some hs) saved state]>
                acc) (∅ : gmap string value) ALL_STATES) f =
  best_value None (Some hs) saved f.
Proof.
  unfold best_value at 1 3. destruct (is_defined (getattr hs f)) eqn:E;
    [done|].
  rewrite save_state_get. unfold best_value. by rewrite E.
Qed.

End RefreshProperties.

(** X3. A full refresh of a device that is enabled or has no persisted state
    yet leaves a backend state that holds the power state and reachability
    derived from the reported state, the default transition time, exactly
    the attributes the class of the device reports, and nothing else; every
    field the backend state defines is the persisted value afterwards. *)
Theorem full_refresh_reads_class_fields (on unavailable : string) (env : Env)
    (snap : Refresh.HassStateDict) (d : Device) (f : field) :
  refreshes d ->
  let o := Refresh.async_update_state on unavailable env snap true d in
  ∃ hs r,
    _hass_state (dev o) = Some hs ∧
    getattr hs f = refreshed_field on unavailable d snap f ∧
    _config_state (dev o) = Some r ∧
    (getattr hs f ≠ VNone -> getattr r f = getattr hs f) ∧
    (getattr hs f = VNone ->
       getattr r f =
         dict_get (default ∅ (cfg_state (_config d))) (field_name f)).
Proof.
  intros Hd o. subst o. rewrite (full_refresh_outcome on unavailable _ _ _ Hd).
  rewrite update_config_states_outcome.
  cbn [dev Refresh.with_hass_state with_config_state with_saved_state
       _hass_state _config_state _config cfg_state].
  eexists _, _. split; [reflexivity|].
  split; [apply getattr_refreshed_state|]. split; [reflexivity|].
  rewrite getattr_of_dict, save_state_get.
  unfold OnOffDevice.best_value.
  destruct (is_defined (getattr (refreshed_state on unavailable d snap) f))
    eqn:E.
  - apply is_defined_true in E. by split.
  - apply is_defined_false in E. split; [intros Hf; by destruct Hf|done].
Qed.

Lemma full_refresh_reads_class_fields_witness :
  let d := Sample.device C_Brightness (Some 0) ∅ in
  let o := Refresh.async_update_state "on" "unavailable"
             (mkEnv 0 true true) sample_state_dict true d in
  ∃ hs r,
    _hass_state (dev o) = Some hs ∧
    getattr hs F_xy_color =
      refreshed_field "on" "unavailable" d sample_state_dict F_xy_color ∧
    _config_state (dev o) = Some r ∧
    (getattr hs F_xy_color ≠ VNone ->
       getattr r F_xy_color = getattr hs F_xy_color) ∧
    (getattr hs F_xy_color = VNone ->
       getattr r F_xy_color =
         dict_get (default ∅ (cfg_state (_config d)))
           (field_name F_xy_color)).
Proof.
  cbv zeta.
  apply (full_refresh_reads_class_fields "on" "unavailable"
           (mkEnv 0 true true) sample_state_dict
           (Sample.device C_Brightness (Some 0) ∅) F_xy_color).
  left. reflexivity.
Defined.

Section RefreshComposition.
Import Refresh OnOffDevice.
Variables on unavailable : string.

Lemma refreshed_state_of_refreshed (snap : HassStateDict) (d : Device)
    (hs r : EntityState) (save : gmap string value) :
  refreshed_state on unavailable
    (with_config_state r (with_saved_state save (with_hass_state hs d))) snap =
  refreshed_state on unavailable d snap.
Proof. reflexivity. Qed.

Lemma full_refresh_device (env : Env) (snap : HassStateDict) (d : Device) :
  refreshes d ->
  let save :=
    foldl (fun acc state =>
             <[field_name state :=
                 best_value None (Some (refreshed_state on unavailable d snap))
                   (default ∅ (cfg_state (_config d))) state]> acc)
          (∅ : gmap string value) ALL_STATES in
  dev (async_update_state on unavailable env snap true d) =
    with_config_state (EntityState_of_dict save)
      (with_saved_state save
         (with_hass_state (refreshed_state on unavailable d snap) d)).
Proof.
  intros Hd. cbv zeta. rewrite (full_refresh_outcome on unavailable _ _ _ Hd).
  by rewrite update_config_states_outcome.
Qed.

Lemma refreshed_still_refreshes_or_not (env : Env) (snap : HassStateDict)
    (d : Device) :
  refreshes d ->
  refreshes (dev (async_update_state on unavailable env snap true d)) ->
  truthy (cfg_enabled (_config d)) = true.
Proof.
  intros Hd. rewrite (full_refresh_device env snap d Hd).
  by intros [H|H].
Qed.

End RefreshComposition.

(** X4. Refreshing is idempotent: a second full refresh against the same
    state dict leaves the device exactly as the first one left it, backend
    state, saved state and persisted state included. *)
Theorem full_refresh_idempotent (on unavailable : string) (env env2 : Env)
    (snap : Refresh.HassStateDict) (d : Device) :
  let d1 := dev (Refresh.async_update_state on unavailable env snap true d) in
  dev (Refresh.async_update_state on unavailable env2 snap true d1) = d1.
Proof.
  intros d1.
  destruct (decide (truthy (cfg_enabled (_config d)) = true
                    ∨ _config_state d = None)) as [Hd|Hd].
  - destruct (decide (truthy (cfg_enabled (_config d1)) = true
                      ∨ _config_state d1 = None)) as [Hd1|Hd1].
    + rewrite (full_refresh_device on unavailable env2 snap d1 Hd1).
      subst d1. rewrite (full_refresh_device on unavailable env snap d Hd).
      rewrite refreshed_state_of_refreshed.
      cbn [with_config_state with_saved_state Refresh.with_hass_state _config
           cfg_state cls _light_id _entity_id _throttle_ms _last_update
           _default_transition _hass_state _config_state _control_state
           cfg_name cfg_uniqueid cfg_enabled cfg_throttle default
           from_option id].
      rewrite (save_state_ext _ _
        (best_value_again (refreshed_state on unavailable d snap)
           (default ∅ (cfg_state (_config d))))).
      reflexivity.
    + by rewrite (async_update_state_skips on unavailable env2 snap true d1 Hd1).
  - assert (d1 = d) as ->.
    { subst d1.
      by rewrite (async_update_state_skips on unavailable env snap true d Hd). }
    by rewrite (async_update_state_skips on unavailable env2 snap true d Hd).
Qed.

(** X5. A refresh, full or partial, succeeding or raising, never touches the
    pending commands, the time of the last allowed dispatch, the class or
    the default transition time of the device. *)
Theorem refresh_keeps_pending_commands (on unavailable : string) (env : Env)
    (snap : Refresh.HassStateDict) (full_update : bool) (d : Device) :
  let d' := dev (Refresh.async_update_state on unavailable env snap
                   full_update d) in
  _control_state d' = _control_state d ∧
  _last_update d' = _last_update d ∧
  cls d' = cls d ∧
  _default_transition d' = _default_transition d ∧
  _throttle_ms d' = _throttle_ms d.
Proof.
  intros d'. subst d'.
  destruct (decide (refreshes d)) as [Hd|Hd].
  - rewrite (async_update_state_runs on unavailable _ _ _ _ Hd).
    pose proof (update_device_state_keeps on unavailable snap d full_update)
      as (Hstore & Hlast & _ & _ & Hcls & Hdef).
    assert (_throttle_ms
              (dev (Refresh._update_device_state on unavailable snap
                      full_update d)) = _throttle_ms d) as Hthr.
    { destruct d as [c ? ? ? ? ? ? h ? ?].
      destruct full_update, c, h as [[]|]; vm_compute; reflexivity. }
    destruct (Refresh._update_device_state on unavailable snap full_update d)
      as [[[]|e] d1 tr] eqn:Hupd; cbn [dev] in *.
    + rewrite (bind_outcome_ok _ _ _ _ _ _ Hupd).
      rewrite update_config_states_outcome. by cbn.
    + by rewrite (bind_outcome_raise _ _ _ _ _ _ Hupd).
  - by rewrite (async_update_state_skips on unavailable _ _ _ _ Hd).
Qed.

(** X6. The refresh of an RGBW device ignores its [full_update] argument: a
    partial refresh is the full refresh. *)
Theorem rgbw_refresh_is_always_full (on unavailable : string) (env : Env)
    (snap : Refresh.HassStateDict) (d : Device) :
  cls d = C_RGBW ->
  Refresh.async_update_state on unavailable env snap false d =
  Refresh.async_update_state on unavailable env snap true d.
Proof.
  intros Hc. unfold Refresh.async_update_state. rewrite !bind_get.
  destruct (_ || _); [|done].
  unfold bind. by rewrite (update_device_state_rgbw on unavailable snap d false Hc).
Qed.

Lemma rgbw_refresh_is_always_full_witness :
  Refresh.async_update_state "on" "unavailable" (mkEnv 0 true true)
    sample_state_dict false (Sample.device C_RGBW (Some 0) ∅) =
  Refresh.async_update_state "on" "unavailable" (mkEnv 0 true true)
    sample_state_dict true (Sample.device C_RGBW (Some 0) ∅).
Proof.
  exact (rgbw_refresh_is_always_full "on" "unavailable" (mkEnv 0 true true)
           sample_state_dict (Sample.device C_RGBW (Some 0) ∅) eq_refl).
Defined.

(** X7. A partial refresh of a device below RGBW that has a backend state
    reads only the attributes its class reports: power state, reachability
    and transition time of the backend state stay as they were, stale or
    not. *)
Theorem partial_refresh_keeps_power_state (on unavailable : string)
    (env : Env) (snap : Refresh.HassStateDict) (d : Device)
    (hs : EntityState) (f : field) :
  refreshes d -> cls d ≠ C_RGBW -> _hass_state d = Some hs ->
  let o := Refresh.async_update_state on unavailable env snap false d in
  ∃ hs', _hass_state (dev o) = Some hs' ∧
    power_state hs' = power_state hs ∧
    reachable hs' = reachable hs ∧
    transition_seconds hs' = transition_seconds hs ∧
    getattr hs' f =
      (if reports (cls d) f then reported snap f else getattr hs f).
Proof.
  intros Hd Hc Hh o. subst o.
  rewrite (async_update_state_runs on unavailable _ _ _ _ Hd).
  rewrite (bind_silent_ok _ _ _ _ _
             (update_device_state_partial on unavailable snap d hs Hc Hh)).
  rewrite update_config_states_outcome.
  cbn [dev Refresh.with_hass_state with_config_state with_saved_state
       _hass_state].
  eexists. split; [reflexivity|].
  destruct (cls d); try done; by destruct f.
Qed.

Lemma partial_refresh_keeps_power_state_witness :
  let d := Sample.device C_Brightness (Some 0) ∅ in
  let o := Refresh.async_update_state "on" "unavailable" (mkEnv 0 true true)
             (Refresh.mkHassStateDict (VStr "off") (VInt 7) VNone VNone VNone
                VNone VNone ["brightness"]) false d in
  ∃ hs', _hass_state (dev o) = Some hs' ∧
    power_state hs' = VBool true ∧ brightness hs' = VInt 7.
Proof.
  cbv zeta.
  destruct (partial_refresh_keeps_power_state "on" "unavailable"
              (mkEnv 0 true true)
              (Refresh.mkHassStateDict (VStr "off") (VInt 7) VNone VNone VNone
                 VNone VNone ["brightness"])
              (Sample.device C_Brightness (Some 0) ∅) Sample.persisted
              F_brightness)
    as (hs' & Hhs & Hpower & _ & _ & Hbri).
  - left. reflexivity.
  - discriminate.
  - reflexivity.
  - exists hs'. split; [exact Hhs|]. split; [exact Hpower|exact Hbri].
Defined.

(** X8. A partial refresh before any full one fails for the classes
    Brightness, CT and RGB: with no backend state yet it raises
    [AttributeError] and changes nothing, nothing is reconciled or saved;
    an OnOff device just reconciles. *)
Theorem partial_refresh_without_backend_state (on unavailable : string)
    (env : Env) (snap : Refresh.HassStateDict) (d : Device) :
  refreshes d -> _hass_state d = None ->
  let o := Refresh.async_update_state on unavailable env snap false d in
  match cls d with
  | C_Brightness | C_CT | C_RGB => o = mkOutcome (Raise AttributeError) d []
  | C_OnOff => o = OnOffDevice._async_update_config_states env None d
  | C_RGBW => o = Refresh.async_update_state on unavailable env snap true d
  end.
Proof.
  intros Hd Hh o. subst o.
  destruct (cls d) eqn:Hc;
    try (rewrite (async_update_state_runs on unavailable _ _ _ _ Hd);
         pose proof (update_device_state_partial_none on unavailable snap d Hh)
           as Hupd;
         rewrite Hc in Hupd).
  - by rewrite (bind_silent_ok _ _ _ _ _ Hupd).
  - by rewrite (bind_outcome_raise _ _ _ _ _ _ Hupd).
  - by rewrite (bind_outcome_raise _ _ _ _ _ _ Hupd).
  - by rewrite (bind_outcome_raise _ _ _ _ _ _ Hupd).
  - rewrite (bind_silent_ok _ _ _ _ _ Hupd).
    by rewrite (full_refresh_outcome on unavailable _ _ _ Hd).
Qed.

Lemma partial_refresh_without_backend_state_witness :
  let d := mkDevice C_CT "1" "light.lamp" (Sample.config (Some 0)) (Some 0) 0
             (VFloat (2 # 5)) None None ∅ in
  Refresh.async_update_state "on" "unavailable" (mkEnv 0 true true)
    sample_state_dict false d = mkOutcome (Raise AttributeError) d [].
Proof.
  cbv zeta.
  apply (partial_refresh_without_backend_state "on" "unavailable"
           (mkEnv 0 true true) sample_state_dict
           (mkDevice C_CT "1" "light.lamp" (Sample.config (Some 0)) (Some 0) 0
              (VFloat (2 # 5)) None None ∅)).
  - left. reflexivity.
  - reflexivity.
Defined.

(** ** Commits *)

Section CommitComposition.
Import OnOffDevice.

Lemma update_allowed_true_outcome (env : Env) (cs : EntityState)
    (d : Device) :
  res (_async_update_allowed env cs d) = Ok true ->
  _async_update_allowed env cs d = mkOutcome (Ok true) (after_gate env d) [].
Proof.
  unfold _async_update_allowed, after_gate. rewrite bind_get.
  destruct (_throttle_ms d) as [t|]; [|done].
  destruct (t =? 0); [done|].
  destruct (config_state_equals d cs); [done|].
  destruct (Qltb _ _); [done|]. by rewrite bind_modify.
Qed.

Lemma after_gate_store (env : Env) (d : Device) (m : gmap Z EntityState) :
  after_gate env (with_control_state m d) =
    with_control_state m (after_gate env d).
Proof.
  unfold after_gate. cbn [with_control_state _throttle_ms].
  destruct (_throttle_ms d) as [t|]; [|done]. by destruct (t =? 0).
Qed.

(** What a commit does once the gate has allowed it. *)
Lemma execute_allowed (env : Env) (h : Z) (d : Device) (cs : EntityState) :
  _control_state d !! h = Some cs ->
  res (_async_update_allowed env cs d) = Ok true ->
  let d1 := with_control_state (delete h (_control_state d))
              (after_gate env d) in
  async_execute env h d =
    if env_hass_ok env
    then
      let o := _async_update_config_states env (Some cs) d1 in
      mkOutcome (res o) (dev o) (dispatch_of (_entity_id d) cs :: trace o)
    else mkOutcome (Raise BackendError) d1 [dispatch_of (_entity_id d) cs].
Proof.
  intros Hh Hallow. cbv zeta. unfold async_execute.
  rewrite bind_get, bind_modify, Hh.
  assert (_async_update_allowed env cs
            (with_control_state (delete h (_control_state d)) d) =
          mkOutcome (Ok true)
            (with_control_state (delete h (_control_state d))
               (after_gate env d)) []) as Hgate.
  { rewrite update_allowed_store.
    by rewrite (update_allowed_true_outcome env cs d Hallow). }
  rewrite (bind_silent_ok _ _ _ _ _ Hgate). cbn [negb].
  unfold dispatch_of, async_turn_on, async_turn_off.
  destruct (truthy (power_state cs)); rewrite bind_assoc, bind_emit;
    destruct (env_hass_ok env); by rewrite ?bind_ret, ?bind_raise.
Qed.

End CommitComposition.

(** X9. A commit the gate allows and the backend accepts issues exactly one
    backend command, power-on when the staged power state is truthy and
    power-off otherwise, then saves once; afterwards every field the
    committed state defines is the persisted value, and the entry is gone. *)
Theorem commit_dispatches_once_and_persists (env : Env) (h : Z) (d : Device)
    (cs : EntityState) (f : field) :
  _control_state d !! h = Some cs ->
  res (OnOffDevice._async_update_allowed env cs d) = Ok true ->
  env_hass_ok env = true ->
  let o := OnOffDevice.async_execute env h d in
  (∃ saved, trace o = [dispatch_of (_entity_id d) cs; saved] ∧
            is_dispatch saved = false) ∧
  (∃ r, _config_state (dev o) = Some r ∧
        (getattr cs f ≠ VNone -> getattr r f = getattr cs f)) ∧
  _control_state (dev o) = delete h (_control_state d) ∧
  res o = (if env_store_ok env then Ok tt else Raise StoreError).
Proof.
  intros Hh Hallow Hhass o. subst o.
  rewrite (execute_allowed env h d cs Hh Hallow), Hhass.
  rewrite update_config_states_outcome.
  cbn [res dev trace with_config_state with_saved_state _config_state
       _control_state with_control_state].
  split; [by eexists|]. split; [|done].
  eexists. split; [reflexivity|].
  rewrite getattr_of_dict, save_state_get. intros Hf.
  unfold OnOffDevice.best_value.
  apply is_defined_true in Hf. by rewrite Hf.
Qed.

Lemma commit_dispatches_once_and_persists_witness :
  let d := Sample.device C_OnOff (Some 0) {[1 := Sample.seed_off]} in
  let o := OnOffDevice.async_execute (mkEnv 10 true true) 1 d in
  (∃ saved, trace o = [dispatch_of "light.lamp" Sample.seed_off; saved] ∧
            is_dispatch saved = false) ∧
  (∃ r, _config_state (dev o) = Some r ∧
        (getattr Sample.seed_off F_power_state ≠ VNone ->
         getattr r F_power_state = getattr Sample.seed_off F_power_state)) ∧
  _control_state (dev o) = delete 1 (_control_state d) ∧
  res o = Ok tt.
Proof.
  cbv zeta.
  exact (commit_dispatches_once_and_persists (mkEnv 10 true true) 1
           (Sample.device C_OnOff (Some 0) {[1 := Sample.seed_off]})
           Sample.seed_off F_power_state eq_refl eq_refl eq_refl).
Defined.



(** ** The decorator *)

Section Decorator.
Import OnOffDevice.


Lemma ensure_fresh
    (func : value -> value -> option EntityState -> M value)
    (setting : value) (d : Device) (s : EntityState) :
  _config_state d = Some s ->
  ensure_control_state func [setting; VNone] ∅ d =
    func (py_or setting VNone)
      (VInt (__next_control_state_id (_control_state d)))
      (Some (seeded_entry d s))
      (with_seeded (__next_control_state_id (_control_state d)) s d).
Proof.
  intros Hs. unfold ensure_control_state. simpl py_index.
  rewrite !bind_lift_ok. change (py_or VNone _) with VNone. cbv iota.
  rewrite (bind_silent_ok _ _ _ _ _ (new_control_state_fresh d s Hs)).
  rewrite (bind_silent_ok _ _ _ _ _ (control_state_get_int _ _)).
  cbn [with_control_state _control_state]. by rewrite lookup_insert_eq.
Qed.

Lemma new_control_state_at (h : Z) (d : Device) (s : EntityState) :
  h ≠ 0 -> _config_state d = Some s ->
  _new_control_state (VInt h) d = mkOutcome (Ok (VInt h)) (with_seeded h s d) [].
Proof.
  intros Hh Hs. unfold _new_control_state. rewrite bind_get.
  rewrite (bind_silent_ok _ _ _ _ _ (config_state_attr_some _ d s Hs)).
  simpl truthy. apply Z.eqb_neq in Hh. rewrite Hh. cbn [negb handle_key].
  by rewrite bind_lift_ok, bind_modify.
Qed.

Lemma ensure_stale
    (func : value -> value -> option EntityState -> M value)
    (setting : value) (h : Z) (d : Device) (s : EntityState) :
  h ≠ 0 -> _control_state d !! h = None -> _config_state d = Some s ->
  ensure_control_state func [setting; VInt h] ∅ d =
    let o := func (py_or setting VNone) (VInt h) (Some (seeded_entry d s))
               (with_seeded h s d) in
    mkOutcome (res o) (dev o) (stale_warning :: trace o).
Proof.
  intros Hh Hnone Hs. unfold ensure_control_state. simpl py_index.
  rewrite !bind_lift_ok.
  assert (py_or (VInt h) (dict_get ∅ "control_id") = VInt h) as ->.
  { unfold py_or. simpl. apply Z.eqb_neq in Hh. by rewrite Hh. }
  cbv iota. rewrite bind_assoc.
  rewrite (bind_silent_ok _ _ _ _ _ (control_state_get_int h d)), Hnone.
  rewrite bind_assoc, bind_emit, bind_assoc.
  rewrite (bind_silent_ok _ _ _ _ _ (new_control_state_at h d s Hh Hs)).
  rewrite bind_ret.
  rewrite (bind_silent_ok _ _ _ _ _ (control_state_get_int h _)).
  cbn [with_seeded with_control_state _control_state].
  by rewrite lookup_insert_eq.
Qed.

Lemma ensure_known
    (func : value -> value -> option EntityState -> M value)
    (setting : value) (h : Z) (entry : EntityState) (d : Device) :
  h ≠ 0 -> _control_state d !! h = Some entry ->
  ensure_control_state func [setting; VInt h] ∅ d =
    func (py_or setting VNone) (VInt h) (Some entry) d.
Proof.
  intros Hh Hentry. unfold ensure_control_state. simpl py_index.
  rewrite !bind_lift_ok.
  assert (py_or (VInt h) (dict_get ∅ "control_id") = VInt h) as ->.
  { unfold py_or. simpl. apply Z.eqb_neq in Hh. by rewrite Hh. }
  cbv iota. rewrite bind_assoc.
  rewrite (bind_silent_ok _ _ _ _ _ (control_state_get_int h d)), Hentry.
  rewrite bind_ret.
  by rewrite (bind_silent_ok _ _ _ _ _ (control_state_get_int h d)), Hentry.
Qed.

Lemma ensure_unrefreshed
    (func : value -> value -> option EntityState -> M value)
    (setting : value) (d : Device) :
  _config_state d = None ->
  ensure_control_state func [setting; VNone] ∅ d =
    mkOutcome (Raise AttributeError) d [] ∧
  ∀ h, h ≠ 0 -> _control_state d !! h = None ->
    ensure_control_state func [setting; VInt h] ∅ d =
      mkOutcome (Raise AttributeError) d [stale_warning].
Proof.
  intros Hs.
  assert (∀ control_id,
            _new_control_state control_id d =
              mkOutcome (Raise AttributeError) d []) as Hnew.
  { intros control_id. unfold _new_control_state. rewrite bind_get.
    by rewrite (bind_outcome_raise _ _ _ _ _ _
                  (config_state_attr_none _ d Hs)). }
  split.
  - unfold ensure_control_state. simpl py_index. rewrite !bind_lift_ok.
    change (py_or VNone _) with VNone. cbv iota.
    by rewrite (bind_outcome_raise _ _ _ _ _ _ (Hnew VNone)).
  - intros h Hh Hnone. unfold ensure_control_state. simpl py_index.
    rewrite !bind_lift_ok.
    assert (py_or (VInt h) (dict_get ∅ "control_id") = VInt h) as ->.
    { unfold py_or. simpl. apply Z.eqb_neq in Hh. by rewrite Hh. }
    cbv iota. rewrite bind_assoc.
    rewrite (bind_silent_ok _ _ _ _ _ (control_state_get_int h d)), Hnone.
    rewrite bind_assoc, bind_emit, bind_assoc.
    by rewrite (bind_outcome_raise _ _ _ _ _ _ (Hnew (VInt h))).
Qed.

End Decorator.

(** X11. How a decorated write obtains its entry, for every method body and
    every setting: a known non-zero handle runs the body on its entry as it
    is; an unknown non-zero handle logs one warning and runs the body on an
    entry seeded under that same handle; no handle runs the body, without a
    warning, on an entry seeded under the next free handle.  A seeded entry
    carries the persisted power state and the default transition time. *)
Theorem decorator_obtains_or_creates
    (func : value -> value -> option EntityState -> M value)
    (setting : value) (h : Z) (d : Device) (s : EntityState) :
  h ≠ 0 -> _config_state d = Some s ->
  (∀ entry, _control_state d !! h = Some entry ->
     OnOffDevice.ensure_control_state func [setting; VInt h] ∅ d =
       func (py_or setting VNone) (VInt h) (Some entry) d) ∧
  (_control_state d !! h = None ->
     OnOffDevice.ensure_control_state func [setting; VInt h] ∅ d =
       let o := func (py_or setting VNone) (VInt h) (Some (seeded_entry d s))
                  (with_seeded h s d) in
       mkOutcome (res o) (dev o) (stale_warning :: trace o)) ∧
  OnOffDevice.ensure_control_state func [setting; VNone] ∅ d =
    func (py_or setting VNone)
      (VInt (OnOffDevice.__next_control_state_id (_control_state d)))
      (Some (seeded_entry d s))
      (with_seeded (OnOffDevice.__next_control_state_id (_control_state d))
         s d).
Proof.
  intros Hh Hs. split; [|split].
  - intros entry Hentry. by apply ensure_known.
  - intros Hnone. by apply ensure_stale.
  - by apply ensure_fresh.
Qed.

Lemma decorator_obtains_or_creates_witness :
  let d := Sample.device C_RGB (Some 0) {[1 := Sample.seed]} in
  OnOffDevice.ensure_control_state RGBDevice.set_effect_body
    [VStr "colorloop"; VInt 4] ∅ d =
    let o := RGBDevice.set_effect_body (VStr "colorloop") (VInt 4)
               (Some (seeded_entry d Sample.persisted))
               (with_seeded 4 Sample.persisted d) in
    mkOutcome (res o) (dev o) (stale_warning :: trace o).
Proof.
  cbv zeta.
  assert (4 ≠ 0) as Hh by lia.
  exact (proj1 (proj2 (decorator_obtains_or_creates RGBDevice.set_effect_body
                         (VStr "colorloop") 4
                         (Sample.device C_RGB (Some 0) {[1 := Sample.seed]})
                         Sample.persisted Hh eq_refl)) eq_refl).
Defined.

(** X12. A device that was constructed but never refreshed rejects every
    write that needs a new entry: with no handle the write raises
    [AttributeError] and changes nothing, with an unknown non-zero handle it
    logs the warning first and then raises. *)
Theorem writes_before_refresh_raise (c : class) (default_seconds : Q)
    (light_id entity_id : string) (config : Config) (now : Q) (d : Device)
    (func : value -> value -> option EntityState -> M value)
    (setting : value) :
  OnOffDevice.__init__ c default_seconds light_id entity_id config now
    = Ok d ->
  OnOffDevice.ensure_control_state func [setting; VNone] ∅ d =
    mkOutcome (Raise AttributeError) d [] ∧
  ∀ h, h ≠ 0 ->
    OnOffDevice.ensure_control_state func [setting; VInt h] ∅ d =
      mkOutcome (Raise AttributeError) d [stale_warning].
Proof.
  intros Hinit.
  assert (_config_state d = None ∧ _control_state d = ∅) as [Hs Hstore].
  { unfold OnOffDevice.__init__ in Hinit.
    destruct (py_gt _ _) as [larger|]; [|done].
    destruct (if larger then _ else _) as [default_transition|]; [|done].
    by injection Hinit as <-. }
  destruct (ensure_unrefreshed func setting d Hs) as [Hnone Hstale].
  split; [done|]. intros h Hh. apply Hstale; [done|].
  rewrite Hstore. apply lookup_empty.
Qed.

Lemma writes_before_refresh_raise_witness :
  ∃ d, OnOffDevice.__init__ C_OnOff (2 # 5) "1" "light.lamp"
         (Sample.config (Some 0)) 0 = Ok d ∧
       OnOffDevice.set_power_state [VBool true; VNone] ∅ d =
         mkOutcome (Raise AttributeError) d [].
Proof.
  eexists. split; [reflexivity|].
  exact (proj1 (writes_before_refresh_raise C_OnOff (2 # 5) "1" "light.lamp"
                  (Sample.config (Some 0)) 0 _
                  OnOffDevice.set_power_state_body (VBool true) eq_refl)).
Defined.

(** ** What a write leaves alone *)

Section Frame.
Import OnOffDevice.


(** Runs a method body up to its outcome: pure steps are performed, the
    results of conversions are split into success and failure. *)
Ltac run_body :=
  repeat first
    [ rewrite bind_get
    | rewrite bind_lift_ok
    | rewrite bind_lift_raise
    | rewrite bind_ret
    | rewrite (bind_silent_ok _ _ _ _ _ (assign_some _ _ _ _ _))
    | rewrite (bind_outcome_raise _ _ _ _ _ _ (assign_none _ _ _ _))
    | match goal with
      | |- context [lift ?r] =>
          lazymatch r with
          | Ok _ => fail
          | Raise _ => fail
          | _ => destruct r
          end
      end ];
  cbn [with_control_state _control_state];
  rewrite ?alter_alter_eq.

Lemma write_bodies_keep_to_own_entry
    (func : value -> value -> option EntityState -> M value) :
  func ∈ write_bodies -> keeps_to_own_entry func.
Proof.
  unfold write_bodies. rewrite !elem_of_cons, elem_of_nil.
  intros [->|[->|[->|[->|[->|[->|[->|[->|[]]]]]]]]];
    intros setting key d;
    unfold set_transition_ms_body, set_power_state_body,
      BrightnessDevice.set_brightness_body, BrightnessDevice.set_flash_body,
      CTDevice.set_color_temperature_body, RGBDevice.set_hue_sat_body,
      RGBDevice.set_rgb_body, RGBDevice.set_effect_body;
    destruct (_control_state d !! key) as [entry|] eqn:Hentry;
    run_body; unfold ret;
    cbn [dev res with_control_state _control_state];
    (split;
     [ intros k Hk; by rewrite ?lookup_alter_ne
     | split;
       [ intros Hsome; rewrite ?lookup_alter_eq, ?Hentry;
         first [done | by eexists | by destruct Hsome]
       | split;
         [ intros v Hv; first [discriminate | by injection Hv as <-]
         | intros e' He'; first [discriminate | done] ] ] ]).
Qed.

End Frame.



(** X14. A write without a handle that raises in its method body has
    already allocated: it leaves behind the freshly seeded entry under the
    next free handle, which no caller was told about; nothing else of the
    device changes. *)
Theorem failed_write_leaves_seeded_entry
    (func : value -> value -> option EntityState -> M value)
    (setting : value) (d : Device) (s : EntityState) (e : exn) :
  func ∈ write_bodies ->
  _config_state d = Some s ->
  let o := OnOffDevice.ensure_control_state func [setting; VNone] ∅ d in
  res o = Raise e ->
  dev o =
    with_seeded (OnOffDevice.__next_control_state_id (_control_state d)) s d.
Proof.
  intros Hfunc Hs o. subst o. rewrite (ensure_fresh func setting d s Hs).
  set (key := OnOffDevice.__next_control_state_id (_control_state d)).
  destruct (write_bodies_keep_to_own_entry func Hfunc (py_or setting VNone)
              key (with_seeded key s d)) as (_ & _ & _ & Hraise).
  cbn [with_seeded with_control_state _control_state] in Hraise.
  rewrite lookup_insert_eq in Hraise. apply Hraise.
Qed.

Lemma failed_write_leaves_seeded_entry_witness :
  let d := Sample.device C_Brightness (Some 0) ∅ in
  let o := BrightnessDevice.set_brightness [VInt 0; VNone] ∅ d in
  res o = Raise TypeError ∧ dev o = with_seeded 0 Sample.persisted d.
Proof.
  cbv zeta. split; [reflexivity|].
  assert (BrightnessDevice.set_brightness_body ∈ write_bodies) as Hfunc.
  { unfold write_bodies. rewrite !elem_of_cons. tauto. }
  assert (_config_state (Sample.device C_Brightness (Some 0) ∅) =
          Some Sample.persisted) as Hs by reflexivity.
  assert (res (BrightnessDevice.set_brightness [VInt 0; VNone] ∅
                 (Sample.device C_Brightness (Some 0) ∅)) =
          Raise TypeError) as Hres by reflexivity.
  exact (failed_write_leaves_seeded_entry BrightnessDevice.set_brightness_body
           (VInt 0) (Sample.device C_Brightness (Some 0) ∅) Sample.persisted
           TypeError Hfunc Hs Hres).
Defined.

(** ** Chained writes *)

Section ChainedWrites.
Import OnOffDevice.

Lemma py_or_truthy (a b : value) :
  truthy b = true -> truthy (py_or a b) = true.
Proof. intros Hb. unfold py_or. by destruct (truthy a) eqn:Ha. Qed.

Lemma py_or_of_truthy (a b : value) : truthy a = true -> py_or a b = a.
Proof. intros Ha. unfold py_or. by rewrite Ha. Qed.

Lemma with_control_state_twice (m m' : gmap Z EntityState) (d : Device) :
  with_control_state m (with_control_state m' d) = with_control_state m d.
Proof. reflexivity. Qed.

Lemma set_flash_known (flash : value) (h : Z) (entry : EntityState)
    (d : Device) :
  truthy flash = true -> h ≠ 0 -> _control_state d !! h = Some entry ->
  BrightnessDevice.set_flash [flash; VInt h] ∅ d =
    mkOutcome (Ok (VInt h))
      (with_control_state
         (<[h := setattr F_flash_state flash entry]> (_control_state d)) d) [].
Proof.
  intros Hflash Hh Hentry. unfold BrightnessDevice.set_flash.
  rewrite (ensure_known _ _ h entry d Hh Hentry).
  rewrite (py_or_of_truthy _ _ Hflash).
  unfold BrightnessDevice.set_flash_body.
  rewrite (bind_silent_ok _ _ _ _ _ (assign_some _ _ _ _ _)).
  unfold ret. do 2 f_equal. apply map_eq. intros k.
  destruct (decide (h = k)) as [->|Hne].
  - by rewrite lookup_alter_eq, lookup_insert_eq, Hentry.
  - by rewrite lookup_alter_ne, lookup_insert_ne.
Qed.

Lemma set_color_temperature_known (ct : value) (h : Z) (entry : EntityState)
    (d : Device) :
  truthy ct = true -> h ≠ 0 -> _control_state d !! h = Some entry ->
  CTDevice.set_color_temperature [ct; VInt h] ∅ d =
    mkOutcome (Ok (VInt h))
      (with_control_state
         (<[h := setattr F_color_mode (VStr "color_temp")
                   (setattr F_color_temp ct entry)]> (_control_state d)) d) [].
Proof.
  intros Hct Hh Hentry. unfold CTDevice.set_color_temperature.
  rewrite (ensure_known _ _ h entry d Hh Hentry).
  rewrite (py_or_of_truthy _ _ Hct).
  unfold CTDevice.set_color_temperature_body.
  rewrite (bind_silent_ok _ _ _ _ _ (assign_some _ _ _ _ _)).
  rewrite (bind_silent_ok _ _ _ _ _ (assign_some _ _ _ _ _)).
  cbn [with_control_state _control_state]. rewrite alter_alter_eq.
  unfold ret. rewrite with_control_state_twice.
  do 2 f_equal. apply map_eq. intros k.
  destruct (decide (h = k)) as [->|Hne].
  - by rewrite lookup_alter_eq, lookup_insert_eq, Hentry.
  - by rewrite lookup_alter_ne, lookup_insert_ne.
Qed.

Lemma set_hue_sat_known (hue sat h : Z) (entry : EntityState) (d : Device) :
  h ≠ 0 -> _control_state d !! h = Some entry ->
  RGBDevice.set_hue_sat [VList [VInt hue; VInt sat]; VInt h] ∅ d =
    mkOutcome (Ok (VInt h))
      (with_control_state
         (<[h := setattr F_color_mode (VStr "hs")
                   (setattr F_hue_saturation (VList [VInt hue; VInt sat])
                      entry)]> (_control_state d)) d) [].
Proof.
  intros Hh Hentry. unfold RGBDevice.set_hue_sat.
  rewrite (ensure_known _ _ h entry d Hh Hentry).
  change (py_or (VList [VInt hue; VInt sat]) VNone)
    with (VList [VInt hue; VInt sat]).
  unfold RGBDevice.set_hue_sat_body. cbn [py_unpack2].
  rewrite bind_lift_ok. simpl fst. simpl snd. simpl py_int.
  rewrite !bind_lift_ok.
  rewrite (bind_silent_ok _ _ _ _ _ (assign_some _ _ _ _ _)).
  rewrite (bind_silent_ok _ _ _ _ _ (assign_some _ _ _ _ _)).
  cbn [with_control_state _control_state]. rewrite alter_alter_eq.
  unfold ret. rewrite with_control_state_twice.
  do 2 f_equal. apply map_eq. intros k.
  destruct (decide (h = k)) as [->|Hne].
  - by rewrite lookup_alter_eq, lookup_insert_eq, Hentry.
  - by rewrite lookup_alter_ne, lookup_insert_ne.
Qed.

End ChainedWrites.

(** X15. On a device of class CT, a flash on a known non-zero handle stages,
    on that one entry, the flash, the persisted color temperature (153 when
    none is persisted or it is 0) and the color mode color_temp; the other
    entries and the rest of the device are untouched and nothing is
    logged. *)
Theorem ct_flash_reasserts_temperature (flash : value) (h : Z)
    (entry s : EntityState) (d : Device) :
  cls d = C_CT -> truthy flash = true -> h ≠ 0 ->
  _control_state d !! h = Some entry -> _config_state d = Some s ->
  CTDevice.set_flash flash (VInt h) d =
    mkOutcome (Ok (VInt h))
      (with_control_state
         (<[h := setattr F_color_mode (VStr "color_temp")
                   (setattr F_color_temp (py_or (color_temp s) (VInt 153))
                      (setattr F_flash_state flash entry))]>
            (_control_state d)) d) [].
Proof.
  intros Hc Hflash Hh Hentry Hs. unfold CTDevice.set_flash.
  rewrite bind_get, Hc. cbn [Super.super_set_flash mro Super.after].
  change (head _) with (Some C_Brightness). cbv iota.
  rewrite (bind_silent_ok _ _ _ _ _
             (set_flash_known flash h entry d Hflash Hh Hentry)).
  set (d1 := with_control_state _ d).
  assert (CTDevice.color_temp d1 =
          mkOutcome (Ok (py_or (color_temp s) (VInt 153))) d1 []) as Hct.
  { unfold CTDevice.color_temp.
    by rewrite (bind_silent_ok _ _ _ _ _
                  (config_state_attr_some F_color_temp d1 s Hs)). }
  rewrite (bind_silent_ok _ _ _ _ _ Hct).
  assert (_control_state d1 !! h = Some (setattr F_flash_state flash entry))
    as Hentry1.
  { subst d1. cbn [with_control_state _control_state].
    apply lookup_insert_eq. }
  rewrite (bind_silent_ok _ _ _ _ _
             (set_color_temperature_known _ h _ d1
                (py_or_truthy (color_temp s) (VInt 153) eq_refl)
                Hh Hentry1)).
  subst d1. cbn [with_control_state _control_state].
  by rewrite insert_insert_eq.
Qed.

Lemma ct_flash_reasserts_temperature_witness :
  let d := Sample.device C_CT (Some 0) {[3 := Sample.seed]} in
  CTDevice.set_flash (VStr "long") (VInt 3) d =
    mkOutcome (Ok (VInt 3))
      (with_control_state
         (<[3 := setattr F_color_mode (VStr "color_temp")
                   (setattr F_color_temp (VInt 300)
                      (setattr F_flash_state (VStr "long") Sample.seed))]>
            (_control_state d)) d) [].
Proof.
  cbv zeta.
  assert (3 ≠ 0) as Hh by lia.
  exact (ct_flash_reasserts_temperature (VStr "long") 3 Sample.seed
           Sample.persisted (Sample.device C_CT (Some 0) {[3 := Sample.seed]})
           eq_refl eq_refl Hh eq_refl eq_refl).
Defined.

(** X16. Color writes chained on one known non-zero handle accumulate: after
    hue and saturation and then a color temperature, the entry carries both
    color fields and the mode of the later write, color_temp; in the other
    order it carries both and the mode hs. *)
Theorem chained_color_writes_keep_both (hue sat ct h : Z)
    (entry : EntityState) (d : Device) :
  h ≠ 0 -> ct ≠ 0 -> _control_state d !! h = Some entry ->
  let hs := VList [VInt hue; VInt sat] in
  let o1 := RGBDevice.set_hue_sat [hs; VInt h] ∅ d in
  let o2 := CTDevice.set_color_temperature [VInt ct; VInt h] ∅ (dev o1) in
  let p1 := CTDevice.set_color_temperature [VInt ct; VInt h] ∅ d in
  let p2 := RGBDevice.set_hue_sat [hs; VInt h] ∅ (dev p1) in
  res o2 = Ok (VInt h) ∧ res p2 = Ok (VInt h) ∧
  _control_state (dev o2) !! h =
    Some (setattr F_color_mode (VStr "color_temp")
            (setattr F_color_temp (VInt ct)
               (setattr F_hue_saturation hs entry))) ∧
  _control_state (dev p2) !! h =
    Some (setattr F_color_mode (VStr "hs")
            (setattr F_hue_saturation hs
               (setattr F_color_temp (VInt ct) entry))).
Proof.
  intros Hh Hct Hentry hs o1 o2 p1 p2. subst hs o1 o2 p1 p2.
  assert (truthy (VInt ct) = true) as Htruthy.
  { simpl. apply Z.eqb_neq in Hct. by rewrite Hct. }
  rewrite (set_hue_sat_known hue sat h entry d Hh Hentry).
  rewrite (set_color_temperature_known (VInt ct) h entry d Htruthy Hh Hentry).
  cbn [dev].
  erewrite (set_color_temperature_known (VInt ct) h _ _ Htruthy Hh);
    [|cbn [with_control_state _control_state]; apply lookup_insert_eq].
  erewrite (set_hue_sat_known hue sat h _ _ Hh);
    [|cbn [with_control_state _control_state]; apply lookup_insert_eq].
  cbn [res dev with_control_state _control_state].
  rewrite !lookup_insert_eq. by destruct entry.
Qed.

Lemma chained_color_writes_keep_both_witness :
  let d := Sample.device C_RGBW (Some 0) {[2 := Sample.seed]} in
  let o1 := RGBDevice.set_hue_sat [VList [VInt 10; VInt 20]; VInt 2] ∅ d in
  let o2 := CTDevice.set_color_temperature [VInt 250; VInt 2] ∅ (dev o1) in
  color_mode <$> _control_state (dev o2) !! 2 = Some (VStr "color_temp") ∧
  hue_saturation <$> _control_state (dev o2) !! 2 =
    Some (VList [VInt 10; VInt 20]).
Proof.
  cbv zeta.
  assert (2 ≠ 0) as Hh by lia. assert (250 ≠ 0) as Hct by lia.
  assert (_control_state (Sample.device C_RGBW (Some 0) {[2 := Sample.seed]})
            !! 2 = Some Sample.seed) as Hentry by reflexivity.
  destruct (chained_color_writes_keep_both 10 20 250 2 Sample.seed
              (Sample.device C_RGBW (Some 0) {[2 := Sample.seed]})
              Hh Hct Hentry) as (_ & _ & Hstore & _).
  rewrite Hstore. split; reflexivity.
Defined.

(** ** Flash on color devices *)

Section ColorFlash.
Import OnOffDevice.

Lemma rgb_flash_known (flash : value) (a b h : Z) (entry s : EntityState)
    (d : Device) :
  cls d = C_RGB ∨ cls d = C_RGBW ->
  truthy flash = true -> h ≠ 0 ->
  _control_state d !! h = Some entry -> _config_state d = Some s ->
  py_or (hue_saturation s) (VList [VInt 0; VInt 0]) =
    VList [VInt a; VInt b] ->
  RGBDevice.set_flash flash (VInt h) d =
    mkOutcome (Ok (VInt h))
      (with_control_state
         (<[h := setattr F_color_mode (VStr "hs")
                   (setattr F_hue_saturation (VList [VInt a; VInt b])
                      (setattr F_flash_state flash entry))]>
            (_control_state d)) d) [].
Proof.
  intros Hc Hflash Hh Hentry Hs Hhs. unfold RGBDevice.set_flash.
  rewrite bind_get.
  assert (Super.super_set_flash C_RGB (cls d) = Some C_Brightness) as ->
    by (by destruct Hc as [-> | ->]).
  rewrite (bind_silent_ok _ _ _ _ _
             (set_flash_known flash h entry d Hflash Hh Hentry)).
  set (d1 := with_control_state _ d).
  assert (RGBDevice.hue_sat d1 =
          mkOutcome (Ok (VList [VInt a; VInt b])) d1 []) as Hprop.
  { unfold RGBDevice.hue_sat.
    rewrite (bind_silent_ok _ _ _ _ _
               (config_state_attr_some F_hue_saturation d1 s Hs)).
    rewrite <- Hhs. reflexivity. }
  rewrite (bind_silent_ok _ _ _ _ _ Hprop). simpl py_index.
  rewrite bind_lift_ok, (bind_silent_ok _ _ _ _ _ Hprop). simpl py_index.
  rewrite bind_lift_ok.
  assert (_control_state d1 !! h = Some (setattr F_flash_state flash entry))
    as Hentry1.
  { subst d1. cbn [with_control_state _control_state].
    apply lookup_insert_eq. }
  rewrite (bind_silent_ok _ _ _ _ _
             (set_hue_sat_known a b h _ d1 Hh Hentry1)).
  subst d1. cbn [with_control_state _control_state].
  by rewrite insert_insert_eq.
Qed.

End ColorFlash.

(** X17. On an RGBW device a flash on a known non-zero handle follows the
    persisted color mode.  In mode color_temp (also when no mode is
    persisted) it stages, on that one entry, the flash, the persisted hue
    and saturation and the persisted color temperature, and leaves the mode
    color_temp; in any other mode it stages the flash and the hue and
    saturation and leaves the mode hs. *)
Theorem rgbw_flash_follows_color_mode (flash : value) (a b h : Z)
    (entry s : EntityState) (d : Device) :
  cls d = C_RGBW -> truthy flash = true -> h ≠ 0 ->
  _control_state d !! h = Some entry -> _config_state d = Some s ->
  py_or (hue_saturation s) (VList [VInt 0; VInt 0]) =
    VList [VInt a; VInt b] ->
  let staged_hs :=
    setattr F_color_mode (VStr "hs")
      (setattr F_hue_saturation (VList [VInt a; VInt b])
         (setattr F_flash_state flash entry)) in
  let staged :=
    if py_eqb (py_or (color_mode s) (VStr "color_temp")) (VStr "color_temp")
    then setattr F_color_mode (VStr "color_temp")
           (setattr F_color_temp (py_or (color_temp s) (VInt 153)) staged_hs)
    else staged_hs in
  RGBWDevice.set_flash flash (VInt h) d =
    mkOutcome (Ok (VInt h))
      (with_control_state (<[h := staged]> (_control_state d)) d) [].
Proof.
  intros Hc Hflash Hh Hentry Hs Hhs. cbv zeta.
  assert (RGBDevice.set_flash flash (VInt h) d = _) as Hrgb
    by exact (rgb_flash_known flash a b h entry s d (or_intror Hc) Hflash Hh
                Hentry Hs Hhs).
  unfold RGBWDevice.set_flash.
  assert (CTDevice.color_mode d =
          mkOutcome (Ok (py_or (color_mode s) (VStr "color_temp"))) d [])
    as Hmode.
  { unfold CTDevice.color_mode.
    by rewrite (bind_silent_ok _ _ _ _ _
                  (config_state_attr_some F_color_mode d s Hs)). }
  rewrite (bind_silent_ok _ _ _ _ _ Hmode).
  change Const.HASS_ATTR_COLOR_TEMP with "color_temp".
  destruct (py_eqb _ _); [|exact Hrgb].
  unfold CTDevice.set_flash. rewrite bind_get, Hc.
  change (Super.super_set_flash C_CT C_RGBW) with (Some C_RGB). cbv iota.
  rewrite (bind_silent_ok _ _ _ _ _ Hrgb).
  set (d1 := with_control_state _ d).
  assert (CTDevice.color_temp d1 =
          mkOutcome (Ok (py_or (color_temp s) (VInt 153))) d1 []) as Hct.
  { unfold CTDevice.color_temp.
    by rewrite (bind_silent_ok _ _ _ _ _
                  (config_state_attr_some F_color_temp d1 s Hs)). }
  rewrite (bind_silent_ok _ _ _ _ _ Hct).
  erewrite (bind_silent_ok _ _ _ _ _
              (set_color_temperature_known _ h _ d1
                 (py_or_truthy (color_temp s) (VInt 153) eq_refl) Hh _)).
  subst d1. cbn [with_control_state _control_state].
  by rewrite insert_insert_eq.
  Unshelve. subst d1. cbn [with_control_state _control_state].
  apply lookup_insert_eq.
Qed.

Lemma rgbw_flash_follows_color_mode_witness :
  let d := Sample.device C_RGBW (Some 0) {[5 := Sample.seed]} in
  RGBWDevice.set_flash (VStr "short") (VInt 5) d =
    mkOutcome (Ok (VInt 5))
      (with_control_state
         (<[5 := setattr F_color_mode (VStr "color_temp")
                   (setattr F_color_temp (VInt 300)
                      (setattr F_color_mode (VStr "hs")
                         (setattr F_hue_saturation (VList [VInt 10; VInt 20])
                            (setattr F_flash_state (VStr "short")
                               Sample.seed))))]>
            (_control_state d)) d) [].
Proof.
  cbv zeta.
  assert (5 ≠ 0) as Hh by lia.
  exact (rgbw_flash_follows_color_mode (VStr "short") 10 20 5 Sample.seed
           Sample.persisted
           (Sample.device C_RGBW (Some 0) {[5 := Sample.seed]})
           eq_refl eq_refl Hh eq_refl eq_refl eq_refl).
Defined.

(** ** The factory *)

Section FactoryRun.
Import OnOffDevice Refresh.

Lemma init_with_throttle (c : class) (default_seconds : Q)
    (light_id entity_id : string) (config : Config) (now : Q) (t : Z) :
  cfg_throttle config = Some t ->
  ∃ default_transition,
    __init__ c default_seconds light_id entity_id config now =
      Ok (mkDevice c light_id entity_id config (Some t) now
            default_transition None None ∅).
Proof.
  intros Ht. unfold __init__. rewrite Ht. cbn [opt_int py_gt py_lt num_of].
  destruct (Qltb _ _); by eexists.
Qed.

End FactoryRun.

(** X18. For every configuration with a throttle and every physical device
    whose metadata can be read, the factory builds a device of the class
    chosen from the supported color modes, with an empty store; its first
    full refresh always runs, even when the light is disabled, so the device
    comes back with a persisted state whose power state and reachability
    are those derived from the reported state; the first handle such a
    device allocates is 0.  When the metadata cannot be read the factory
    raises what their constructor raises. *)
Theorem factory_device_is_ready (on unavailable : string)
    (default_seconds : Q) (light_id entity_id : string) (config : Config)
    (device_id : value) (attributes : Metadata.DeviceAttributes)
    (snap : Refresh.HassStateDict) (now : Q) (env : Env) (t : Z) :
  cfg_throttle config = Some t ->
  match Metadata.__init__ device_id attributes with
  | Raise e =>
      Refresh.async_get_device on unavailable default_seconds light_id
        entity_id config device_id attributes snap now env = Raise e
  | Ok properties =>
      ∃ o r,
        Refresh.async_get_device on unavailable default_seconds light_id
          entity_id config device_id attributes snap now env
          = Ok (properties, o) ∧
        cls (dev o) =
          Factory.device_class (Refresh.hsd_supported_color_modes snap) ∧
        _control_state (dev o) = ∅ ∧
        _config_state (dev o) = Some r ∧
        power_state r = VBool (py_eqb (Refresh.hsd_state snap) (VStr on)) ∧
        reachable r =
          VBool (negb (py_eqb (Refresh.hsd_state snap) (VStr unavailable))) ∧
        res (OnOffDevice._new_control_state VNone (dev o)) = Ok (VInt 0) ∧
        res o = (if env_store_ok env then Ok tt else Raise StoreError)
  end.
Proof.
  intros Ht. unfold Refresh.async_get_device.
  destruct (Metadata.__init__ device_id attributes) as [properties|e]; [|done].
  destruct (init_with_throttle
              (Factory.device_class (Refresh.hsd_supported_color_modes snap))
              default_seconds light_id entity_id config now t Ht)
    as [default_transition ->].
  set (d0 := mkDevice _ _ _ _ _ _ _ _ _ _).
  assert (refreshes d0) as Hd0 by (by right).
  eexists _, _. split; [reflexivity|].
  rewrite (full_refresh_outcome on unavailable env snap d0 Hd0).
  rewrite update_config_states_outcome.
  cbn [dev res Refresh.with_hass_state with_config_state with_saved_state
       cls _control_state _config_state].
  split; [reflexivity|]. split; [reflexivity|]. split; [reflexivity|].
  split; [reflexivity|]. split; [reflexivity|]. split; [|reflexivity].
  erewrite new_control_state_fresh; [|reflexivity].
  cbn [res with_config_state with_saved_state Refresh.with_hass_state
       _control_state]. subst d0. cbn [_control_state].
  by rewrite next_control_state_id_empty.
Qed.

Lemma factory_device_is_ready_witness :
  ∃ properties o r,
    Refresh.async_get_device "on" "unavailable" (2 # 5) "1" "light.lamp"
      (Sample.config (Some 0)) (VStr "dev1") sample_attributes
      sample_state_dict 0 (mkEnv 0 true true) = Ok (properties, o) ∧
    Metadata.unique_id properties = VStr "00:17:88" ∧
    cls (dev o) = C_RGBW ∧
    _config_state (dev o) = Some r ∧
    power_state r = VBool true.
Proof.
  pose proof (factory_device_is_ready "on" "unavailable" (2 # 5) "1"
                "light.lamp" (Sample.config (Some 0)) (VStr "dev1")
                sample_attributes sample_state_dict 0 (mkEnv 0 true true) 0
                eq_refl) as Hready.
  change (Metadata.__init__ (VStr "dev1") sample_attributes)
    with (Ok (Metadata.mkDeviceProperties (VStr "dev1") sample_attributes
                (VStr "00:17:88"))) in Hready.
  destruct Hready as (o & r & Hrun & Hcls & _ & Hr & Hpower & _).
  eexists _, o, r. split; [exact Hrun|]. split; [reflexivity|].
  split; [exact Hcls|]. split; [exact Hr|exact Hpower].
Defined.

(** ** Staging, committing and reading back *)

Section RoundTrip.
Import OnOffDevice.

Lemma Qle_bool_inject_Z (a b : Z) :
  Qle_bool (inject_Z a) (inject_Z b) = bool_decide (a <= b).
Proof.
  destruct (Qle_bool (inject_Z a) (inject_Z b)) eqn:E; symmetry.
  - apply bool_decide_eq_true. apply Qle_bool_iff in E.
    by rewrite <- Zle_Qle in E.
  - apply bool_decide_eq_false. intros Hle.
    assert (Qle_bool (inject_Z a) (inject_Z b) = true); [|congruence].
    apply Qle_bool_iff. by rewrite <- Zle_Qle.
Qed.

Lemma clamp_int (b : Z) :
  ∃ q, clamp (VInt b) 1 255 = Ok q ∧ Qtrunc q = Z.max 1 (Z.min b 255).
Proof.
  unfold clamp. cbn [num_of]. rewrite Qle_bool_inject_Z.
  case_bool_decide as Hhi.
  - rewrite Qle_bool_inject_Z. case_bool_decide as Hlo; eexists;
      (split; [reflexivity|]); unfold Qtrunc; cbn [Qnum Qden inject_Z];
      rewrite Z.quot_1_r; lia.
  - rewrite Qle_bool_inject_Z. rewrite bool_decide_eq_true_2 by lia.
    eexists. split; [reflexivity|]. unfold Qtrunc. cbn [Qnum Qden inject_Z].
    rewrite Z.quot_1_r. lia.
Qed.

Lemma set_brightness_known (b h : Z) (entry : EntityState) (d : Device) :
  b ≠ 0 -> h ≠ 0 -> _control_state d !! h = Some entry ->
  BrightnessDevice.set_brightness [VInt b; VInt h] ∅ d =
    mkOutcome (Ok (VInt h))
      (with_control_state
         (<[h := setattr F_brightness (VInt (Z.max 1 (Z.min b 255))) entry]>
            (_control_state d)) d) [].
Proof.
  intros Hb Hh Hentry. unfold BrightnessDevice.set_brightness.
  rewrite (ensure_known _ _ h entry d Hh Hentry).
  assert (py_or (VInt b) VNone = VInt b) as ->.
  { unfold py_or. simpl. apply Z.eqb_neq in Hb. by rewrite Hb. }
  unfold BrightnessDevice.set_brightness_body.
  destruct (clamp_int b) as (q & -> & Hq). rewrite bind_lift_ok, Hq.
  rewrite (bind_silent_ok _ _ _ _ _ (assign_some _ _ _ _ _)).
  unfold ret. do 2 f_equal. apply map_eq. intros k.
  destruct (decide (h = k)) as [->|Hne].
  - by rewrite lookup_alter_eq, lookup_insert_eq, Hentry.
  - by rewrite lookup_alter_ne, lookup_insert_ne.
Qed.

Lemma config_state_attr_persisted (f : field) (r : EntityState)
    (d : Device) :
  config_state_attr f (with_config_state r d) =
    mkOutcome (Ok (getattr r f)) (with_config_state r d) [].
Proof. by apply config_state_attr_some. Qed.

End RoundTrip.

(** X19. Round trip of a brightness: a non-zero brightness staged on a known
    non-zero handle, committed with the gate allowing and the backend
    accepting, is read back by the [brightness] property as the requested
    value clamped into 1 to 255. *)
Theorem brightness_round_trip (env : Env) (b h : Z) (entry : EntityState)
    (d : Device) :
  b ≠ 0 -> h ≠ 0 -> _control_state d !! h = Some entry ->
  let staged := setattr F_brightness (VInt (Z.max 1 (Z.min b 255))) entry in
  let o1 := BrightnessDevice.set_brightness [VInt b; VInt h] ∅ d in
  res (OnOffDevice._async_update_allowed env staged (dev o1)) = Ok true ->
  env_hass_ok env = true ->
  let o2 := OnOffDevice.async_execute env h (dev o1) in
  res (Properties.brightness (dev o2)) = Ok (VInt (Z.max 1 (Z.min b 255))).
Proof.
  intros Hb Hh Hentry staged o1. subst o1.
  rewrite (set_brightness_known b h entry d Hb Hh Hentry). cbn [dev].
  intros Hallow Hhass.
  set (d1 := with_control_state _ d) in *.
  assert (_control_state d1 !! h = Some staged) as Hstaged.
  { subst d1. cbn [with_control_state _control_state].
    apply lookup_insert_eq. }
  rewrite (execute_allowed env h d1 staged Hstaged Hallow), Hhass.
  rewrite update_config_states_outcome. cbn [dev].
  unfold Properties.brightness.
  rewrite (bind_silent_ok _ _ _ _ _ (config_state_attr_persisted _ _ _)).
  rewrite getattr_of_dict, save_state_get.
  unfold OnOffDevice.best_value.
  assert (getattr staged F_brightness = VInt (Z.max 1 (Z.min b 255))) as ->
    by (by destruct entry).
  cbn [is_defined res ret]. f_equal. unfold py_or. simpl.
  destruct (Z.max 1 (Z.min b 255) =? 0) eqn:E; [|done].
  apply Z.eqb_eq in E. lia.
Qed.

Lemma brightness_round_trip_witness :
  let d := Sample.device C_Brightness (Some 0) {[1 := Sample.seed]} in
  let o1 := BrightnessDevice.set_brightness [VInt 300; VInt 1] ∅ d in
  let o2 := OnOffDevice.async_execute (mkEnv 10 true true) 1 (dev o1) in
  res (Properties.brightness (dev o2)) = Ok (VInt 255).
Proof.
  cbv zeta.
  assert (300 ≠ 0) as Hb by lia. assert (1 ≠ 0) as Hh by lia.
  assert (_control_state
            (Sample.device C_Brightness (Some 0) {[1 := Sample.seed]}) !! 1 =
          Some Sample.seed) as Hentry by reflexivity.
  exact (brightness_round_trip (mkEnv 10 true true) 300 1 Sample.seed
           (Sample.device C_Brightness (Some 0) {[1 := Sample.seed]})
           Hb Hh Hentry eq_refl eq_refl).
Defined.
